(** * BEPUik distance limit: a shallow embedding of IKDistanceLimit.cpp

    The C++ class [BEPUik::IKDistanceLimit] keeps two anchors, stored in the
    local frames of two bones, within a band of distances.  This file embeds
    its methods as functions over an explicit world (the bones and the limit
    object) and proves the properties its specification states.

    The [float] type of the source is abstracted by the class [Scalar]: the
    methods are written once against it and then read at two instances,
    IEEE 754 binary32 (executable, with rounding, signed zeros, infinities and
    NaN) and the real numbers (exact arithmetic).  Statements about control
    flow and data flow are proved for every instance; statements that rest on
    the laws of arithmetic are proved in exact arithmetic and, where rounding
    does not break them, in binary32 as well. *)

From Stdlib Require Import ZArith List Bool Reals Lra Lia.
From Stdlib Require Import Floats.SpecFloat.
Import ListNotations.

Set Implicit Arguments.

(** ** Scalars: the operations the source applies to [float] *)

Class Scalar (F : Type) : Type := {
  fzero : F;                 (* the literal 0 *)
  fhalf : F;                 (* the literal 0.5f *)
  ftolerance : F;            (* the literal 0.0001f of HasError *)
  fadd : F -> F -> F;
  fsub : F -> F -> F;
  fmul : F -> F -> F;
  fdiv : F -> F -> F;
  fneg : F -> F;             (* unary minus *)
  fabs : F -> F;             (* std::abs *)
  fsqrt : F -> F;            (* std::sqrt *)
  fltb : F -> F -> bool      (* a < b *)
}.

(** [a > b] of the source. *)
Definition fgtb {F : Type} {ops : Scalar F} (a b : F) : bool := fltb b a.

(** The laws of the order that the boundary cases rest on.  They hold for the
    reals and for binary32 alike (where a comparison with NaN is false). *)
Class OrderedScalar (F : Type) {ops : Scalar F} : Prop := {
  fltb_asym : forall a b : F, fltb a b = true -> fltb b a = false;
  fltb_irrefl : forall a : F, fltb a a = false;
  zero_within_tolerance : fltb (fabs fzero) ftolerance = true
}.
Arguments OrderedScalar F {ops}.

(** Modelled from the spec: Toolbox.hpp is not part of the sources; the spec
    speaks of "a fixed small epsilon constant" consumed from the utility
    module.  Its value is left as a parameter. *)
Class Toolbox (F : Type) : Type := { Epsilon : F }.

(** ** Math primitives *)

Module Vector3.

(** Modelled from the spec: Vector3.hpp is not part of the sources; a vector
    is a triple of floats with value semantics. *)
Record t (F : Type) : Type := mk { X : F; Y : F; Z : F }.
Arguments mk {F} _ _ _.
Arguments X {F} _.
Arguments Y {F} _.
Arguments Z {F} _.

Section Ops.
Context {F : Type} {ops : Scalar F}.

(** Modelled from the spec: the default constructor [Vector3()] yields the
    zero vector (the spec's degenerate case stores "the zero vector" through
    it). *)
Definition zero : t F := mk fzero fzero fzero.

(** Modelled from the spec: [Vector3::Add], componentwise sum. *)
Definition Add (a b : t F) : t F :=
  mk (fadd (X a) (X b)) (fadd (Y a) (Y b)) (fadd (Z a) (Z b)).

(** Modelled from the spec: [Vector3::Subtract], componentwise difference. *)
Definition Subtract (a b : t F) : t F :=
  mk (fsub (X a) (X b)) (fsub (Y a) (Y b)) (fsub (Z a) (Z b)).

(** Modelled from the spec: [Vector3::Negate], componentwise negation. *)
Definition Negate (a : t F) : t F :=
  mk (fneg (X a)) (fneg (Y a)) (fneg (Z a)).

(** Modelled from the spec: [Vector3::Cross], the cross product. *)
Definition Cross (a b : t F) : t F :=
  mk (fsub (fmul (Y a) (Z b)) (fmul (Z a) (Y b)))
     (fsub (fmul (Z a) (X b)) (fmul (X a) (Z b)))
     (fsub (fmul (X a) (Y b)) (fmul (Y a) (X b))).

(** Modelled from the spec: [Vector3::Length], the Euclidean length. *)
Definition Length (a : t F) : F :=
  fsqrt (fadd (fadd (fmul (X a) (X a)) (fmul (Y a) (Y a))) (fmul (Z a) (Z a))).

End Ops.
End Vector3.

Module Quaternion.

(** Modelled from the spec: Quaternion.hpp is not part of the sources; an
    orientation is a quaternion (X, Y, Z, W), of norm one. *)
Record t (F : Type) : Type := mk { X : F; Y : F; Z : F; W : F }.
Arguments mk {F} _ _ _ _.
Arguments X {F} _.
Arguments Y {F} _.
Arguments Z {F} _.
Arguments W {F} _.

Section Ops.
Context {F : Type} {ops : Scalar F}.

(** Modelled from the spec: [Quaternion::Conjugate] negates the vector
    part. *)
Definition Conjugate (q : t F) : t F :=
  mk (fneg (X q)) (fneg (Y q)) (fneg (Z q)) (W q).

(** Modelled from the spec: the Hamilton product of two quaternions, used to
    write the rotation below. *)
Definition Multiply (a b : t F) : t F :=
  mk (fadd (fadd (fmul (W a) (X b)) (fmul (X a) (W b)))
           (fsub (fmul (Y a) (Z b)) (fmul (Z a) (Y b))))
     (fadd (fadd (fmul (W a) (Y b)) (fmul (Y a) (W b)))
           (fsub (fmul (Z a) (X b)) (fmul (X a) (Z b))))
     (fadd (fadd (fmul (W a) (Z b)) (fmul (Z a) (W b)))
           (fsub (fmul (X a) (Y b)) (fmul (Y a) (X b))))
     (fsub (fmul (W a) (W b))
           (fadd (fadd (fmul (X a) (X b)) (fmul (Y a) (Y b))) (fmul (Z a) (Z b)))).

(** Modelled from the spec: [Quaternion::Transform(v, rotation)] applies the
    orientation to the vector ("rotate-by-orientation"): the vector part of
    [rotation * (v, 0) * conjugate(rotation)]. *)
Definition Transform (v : Vector3.t F) (rotation : t F) : Vector3.t F :=
  let p := mk (Vector3.X v) (Vector3.Y v) (Vector3.Z v) fzero in
  let r := Multiply (Multiply rotation p) (Conjugate rotation) in
  Vector3.mk (X r) (Y r) (Z r).

(** Squared norm; an orientation is a quaternion of squared norm one. *)
Definition LengthSquared (q : t F) : F :=
  fadd (fadd (fadd (fmul (X q) (X q)) (fmul (Y q) (Y q))) (fmul (Z q) (Z q)))
       (fmul (W q) (W q)).

End Ops.
End Quaternion.

Module Matrix3X3.

(** Modelled from the spec: Matrix3X3.hpp is not part of the sources; the
    nine entries of a 3x3 matrix, of which this limit populates the first
    row. *)
Record t (F : Type) : Type := mk {
  M11 : F; M12 : F; M13 : F;
  M21 : F; M22 : F; M23 : F;
  M31 : F; M32 : F; M33 : F
}.
Arguments mk {F} _ _ _ _ _ _ _ _ _.
Arguments M11 {F} _.
Arguments M12 {F} _.
Arguments M13 {F} _.
Arguments M21 {F} _.
Arguments M22 {F} _.
Arguments M23 {F} _.
Arguments M31 {F} _.
Arguments M32 {F} _.
Arguments M33 {F} _.

Section Ops.
Context {F : Type} {ops : Scalar F}.

(** Modelled from the spec: the default constructor [Matrix3X3()] yields the
    zero matrix (the rows the method does not assign "remain zero"). *)
Definition zero : t F :=
  mk fzero fzero fzero fzero fzero fzero fzero fzero fzero.

(** [m = Matrix3X3(); m.M11 = v.X; m.M12 = v.Y; m.M13 = v.Z;] *)
Definition ofRow (x y z : F) : t F :=
  let m := zero in
  mk x y z (M21 m) (M22 m) (M23 m) (M31 m) (M32 m) (M33 m).

(** The populated (first) row, read back as a vector. *)
Definition Row1 (m : t F) : Vector3.t F := Vector3.mk (M11 m) (M12 m) (M13 m).
Definition Row2 (m : t F) : Vector3.t F := Vector3.mk (M21 m) (M22 m) (M23 m).
Definition Row3 (m : t F) : Vector3.t F := Vector3.mk (M31 m) (M32 m) (M33 m).

End Ops.
End Matrix3X3.

Module MathHelper.
Section Ops.
Context {F : Type} {ops : Scalar F}.

(** Modelled from the spec: MathHelper is not part of the sources; the spec
    calls it "a non-negative clamp helper" and writes the setters' effect as
    [max(0, value)]. *)
Definition Max (a b : F) : F := if fgtb a b then a else b.

End Ops.
End MathHelper.

(** ** Bones and the limit object *)

(** Modelled from the spec: IKBone.hpp is not part of the sources.  A bone
    exposes its world position and its world orientation. *)
Record IKBone (F : Type) : Type := mkBone {
  Position : Vector3.t F;
  Orientation : Quaternion.t F
}.
Arguments mkBone {F} _ _.
Arguments Position {F} _.
Arguments Orientation {F} _.

(** An [IKBone*]: the limit refers to bones it does not own.  Bones live in a
    store indexed by reference; the references are valid by precondition. *)
Definition BoneRef : Type := nat.

Module IKDistanceLimit.

(** The fields of the object: those inherited from IKJoint and IKLimit (the
    connections, the error correction factor and the derived state) and the
    four of IKDistanceLimit itself. *)
Record t (F : Type) : Type := mk {
  connectionA : BoneRef;
  connectionB : BoneRef;
  errorCorrectionFactor : F;
  error : F;
  velocityBias : Vector3.t F;
  linearJacobianA : Matrix3X3.t F;
  angularJacobianA : Matrix3X3.t F;
  linearJacobianB : Matrix3X3.t F;
  angularJacobianB : Matrix3X3.t F;
  LocalAnchorA : Vector3.t F;
  LocalAnchorB : Vector3.t F;
  minimumDistance : F;
  maximumDistance : F
}.
Arguments mk {F} _ _ _ _ _ _ _ _ _ _ _ _ _.
Arguments connectionA {F} _.
Arguments connectionB {F} _.
Arguments errorCorrectionFactor {F} _.
Arguments error {F} _.
Arguments velocityBias {F} _.
Arguments linearJacobianA {F} _.
Arguments angularJacobianA {F} _.
Arguments linearJacobianB {F} _.
Arguments angularJacobianB {F} _.
Arguments LocalAnchorA {F} _.
Arguments LocalAnchorB {F} _.
Arguments minimumDistance {F} _.
Arguments maximumDistance {F} _.

(** The memory the methods run in: the bones of the skeleton, shared with the
    solver, and the limit object itself. *)
Record World (F : Type) : Type := mkWorld {
  bones : BoneRef -> IKBone F;
  this : t F
}.
Arguments mkWorld {F} _ _.
Arguments bones {F} _ _.
Arguments this {F} _.

(** The branch of the distance policy a recomputation runs through, named
    after the comments of the source. *)
Inductive Branch : Type :=
| ExceedsMaximum     (* "We are exceeding the maximum limit." *)
| ExceedsMinimum     (* "We are exceeding the minimum limit." *)
| CloserToMaximum    (* "The objects are closer to hitting the maximum limit." *)
| CloserToMinimum    (* "The objects are closer to hitting the minimum limit." *)
| Degenerate.        (* the final else: the anchors coincide *)

(** What a recomputation did besides its stores: the branch it took and the
    divisions it executed, each as (dividend, divisor), in program order. *)
Record Trace (F : Type) : Type := mkTrace {
  taken : Branch;
  divisions : list (F * F)
}.
Arguments mkTrace {F} _ _.
Arguments taken {F} _.
Arguments divisions {F} _.

(** The values the if-chain of UpdateJacobiansAndVelocityBias assigns. *)
Record Policy (F : Type) : Type := mkPolicy {
  p_error : F;
  p_velocityBias : Vector3.t F;
  p_linearA : Vector3.t F;
  p_trace : Trace F
}.
Arguments mkPolicy {F} _ _ _ _.
Arguments p_error {F} _.
Arguments p_velocityBias {F} _.
Arguments p_linearA {F} _.
Arguments p_trace {F} _.

Section Methods.
Context {F : Type} {ops : Scalar F} {tools : Toolbox F}.

Definition boneA (w : World F) : IKBone F := bones w (connectionA (this w)).
Definition boneB (w : World F) : IKBone F := bones w (connectionB (this w)).

(** A method writes fields of the limit object and never a bone. *)
Definition with_this (w : World F) (j : t F) : World F := mkWorld (bones w) j.

(** The anchor of connection A in world space: the bone's position plus the
    local anchor turned by the bone's orientation. *)
Definition GetAnchorA (w : World F) : Vector3.t F :=
  let toReturn := Quaternion.Transform (LocalAnchorA (this w)) (Orientation (boneA w)) in
  let toReturn := Vector3.Add (Position (boneA w)) toReturn in
  toReturn.

(** Stores a world-space anchor in the local frame of connection A. *)
Definition SetAnchorA (anchor : Vector3.t F) (w : World F) : World F :=
  let anchor := Vector3.Subtract anchor (Position (boneA w)) in
  let conjugate := Quaternion.Conjugate (Orientation (boneA w)) in
  let anchor := Quaternion.Transform anchor conjugate in
  let j := this w in
  with_this w
    (mk (connectionA j) (connectionB j) (errorCorrectionFactor j) (error j)
        (velocityBias j) (linearJacobianA j) (angularJacobianA j)
        (linearJacobianB j) (angularJacobianB j)
        anchor (LocalAnchorB j) (minimumDistance j) (maximumDistance j)).

(** The same two accessors for connection B. *)
Definition GetAnchorB (w : World F) : Vector3.t F :=
  let toReturn := Quaternion.Transform (LocalAnchorB (this w)) (Orientation (boneB w)) in
  let toReturn := Vector3.Add (Position (boneB w)) toReturn in
  toReturn.

Definition SetAnchorB (anchor : Vector3.t F) (w : World F) : World F :=
  let anchor := Vector3.Subtract anchor (Position (boneB w)) in
  let conjugate := Quaternion.Conjugate (Orientation (boneB w)) in
  let anchor := Quaternion.Transform anchor conjugate in
  let j := this w in
  with_this w
    (mk (connectionA j) (connectionB j) (errorCorrectionFactor j) (error j)
        (velocityBias j) (linearJacobianA j) (angularJacobianA j)
        (linearJacobianB j) (angularJacobianB j)
        (LocalAnchorA j) anchor (minimumDistance j) (maximumDistance j)).

Definition GetMinimumDistance (w : World F) : F := minimumDistance (this w).

Definition SetMinimumDistance (newDistance : F) (w : World F) : World F :=
  let j := this w in
  with_this w
    (mk (connectionA j) (connectionB j) (errorCorrectionFactor j) (error j)
        (velocityBias j) (linearJacobianA j) (angularJacobianA j)
        (linearJacobianB j) (angularJacobianB j)
        (LocalAnchorA j) (LocalAnchorB j)
        (MathHelper.Max fzero newDistance) (maximumDistance j)).

Definition GetMaximumDistance (w : World F) : F := maximumDistance (this w).

Definition SetMaximumDistance (newDistance : F) (w : World F) : World F :=
  let j := this w in
  with_this w
    (mk (connectionA j) (connectionB j) (errorCorrectionFactor j) (error j)
        (velocityBias j) (linearJacobianA j) (angularJacobianA j)
        (linearJacobianB j) (angularJacobianB j)
        (LocalAnchorA j) (LocalAnchorB j)
        (minimumDistance j) (MathHelper.Max fzero newDistance)).

(** Modelled from the spec: the base constructor [IKLimit(connectionA,
    connectionB)] is not part of the sources; it stores the two bone
    references.  [fresh] stands for the object as allocated, with whatever the
    base constructors leave in the other inherited fields. *)
Definition IKLimit (fresh : t F) (connectionA' connectionB' : BoneRef) : t F :=
  mk connectionA' connectionB' (errorCorrectionFactor fresh) (error fresh)
     (velocityBias fresh) (linearJacobianA fresh) (angularJacobianA fresh)
     (linearJacobianB fresh) (angularJacobianB fresh)
     (LocalAnchorA fresh) (LocalAnchorB fresh)
     (minimumDistance fresh) (maximumDistance fresh).

(** The constructor [IKDistanceLimit::IKDistanceLimit]. *)
Definition IKDistanceLimit (skeleton : BoneRef -> IKBone F) (fresh : t F)
    (connectionA' connectionB' : BoneRef) (anchorA anchorB : Vector3.t F)
    (minimumDistance' maximumDistance' : F) : World F :=
  let w := mkWorld skeleton (IKLimit fresh connectionA' connectionB') in
  let w := SetAnchorA anchorA w in
  let w := SetAnchorB anchorB w in
  let w := SetMinimumDistance minimumDistance' w in
  let w := SetMaximumDistance maximumDistance' w in
  w.

(** The locals of UpdateJacobiansAndVelocityBias that precede the if-chain. *)
Definition offsetA (w : World F) : Vector3.t F :=
  Quaternion.Transform (LocalAnchorA (this w)) (Orientation (boneA w)).
Definition offsetB (w : World F) : Vector3.t F :=
  Quaternion.Transform (LocalAnchorB (this w)) (Orientation (boneB w)).
Definition anchorA (w : World F) : Vector3.t F :=
  Vector3.Add (Position (boneA w)) (offsetA w).
Definition anchorB (w : World F) : Vector3.t F :=
  Vector3.Add (Position (boneB w)) (offsetB w).
Definition separation (w : World F) : Vector3.t F :=
  Vector3.Subtract (anchorB w) (anchorA w).
Definition currentDistance (w : World F) : F :=
  Vector3.Length (separation w).

(** [separation / currentDistance], the three divisions of the source. *)
Definition unitSeparation (w : World F) : Vector3.t F :=
  Vector3.mk (fdiv (Vector3.X (separation w)) (currentDistance w))
             (fdiv (Vector3.Y (separation w)) (currentDistance w))
             (fdiv (Vector3.Z (separation w)) (currentDistance w)).

Definition unitSeparation_divisions (w : World F) : list (F * F) :=
  [ (Vector3.X (separation w), currentDistance w);
    (Vector3.Y (separation w), currentDistance w);
    (Vector3.Z (separation w), currentDistance w) ].

(** The if-chain ("Compute jacobians"): the values it assigns to error,
    velocityBias and linearA.  Each branch also records its name and the
    divisions executed on the way to it: the three of [linearA = separation /
    currentDistance] under the guard, none in the final else. *)
Definition policy (w : World F) : Policy F :=
  let j := this w in
  let currentDistance := currentDistance w in
  if fgtb currentDistance Epsilon then
    let linearA := unitSeparation w in
    let executed := unitSeparation_divisions w in
    if fgtb currentDistance (maximumDistance j) then
      let error := fsub currentDistance (maximumDistance j) in
      mkPolicy error
               (Vector3.mk (fmul (errorCorrectionFactor j) error) fzero fzero)
               linearA
               (mkTrace ExceedsMaximum executed)
    else if fltb currentDistance (minimumDistance j) then
      let error := fsub (minimumDistance j) currentDistance in
      mkPolicy error
               (Vector3.mk (fmul (errorCorrectionFactor j) error) fzero fzero)
               (Vector3.Negate linearA)
               (mkTrace ExceedsMinimum executed)
    else if fgtb (fsub currentDistance (minimumDistance j))
                 (fmul (fsub (maximumDistance j) (minimumDistance j)) fhalf) then
      mkPolicy fzero
               (Vector3.mk (fsub currentDistance (maximumDistance j)) fzero fzero)
               linearA
               (mkTrace CloserToMaximum executed)
    else
      mkPolicy fzero
               (Vector3.mk (fsub (minimumDistance j) currentDistance) fzero fzero)
               (Vector3.Negate linearA)
               (mkTrace CloserToMinimum executed)
  else
    mkPolicy fzero Vector3.zero Vector3.zero (mkTrace Degenerate []).

(** UpdateJacobiansAndVelocityBias, with the trace of what it executed. *)
Definition UpdateJacobiansAndVelocityBias_traced (w : World F) : World F * Trace F :=
  let j := this w in
  let p := policy w in
  let linearA := p_linearA p in
  let angularA := Vector3.Cross (offsetA w) linearA in
  let angularB := Vector3.Cross linearA (offsetB w) in
  (with_this w
     (mk (connectionA j) (connectionB j) (errorCorrectionFactor j)
         (p_error p)
         (p_velocityBias p)
         (Matrix3X3.ofRow (Vector3.X linearA) (Vector3.Y linearA) (Vector3.Z linearA))
         (Matrix3X3.ofRow (Vector3.X angularA) (Vector3.Y angularA) (Vector3.Z angularA))
         (Matrix3X3.ofRow (fneg (Vector3.X linearA)) (fneg (Vector3.Y linearA))
                          (fneg (Vector3.Z linearA)))
         (Matrix3X3.ofRow (Vector3.X angularB) (Vector3.Y angularB) (Vector3.Z angularB))
         (LocalAnchorA j) (LocalAnchorB j) (minimumDistance j) (maximumDistance j)),
   p_trace p).

Definition UpdateJacobiansAndVelocityBias (w : World F) : World F :=
  fst (UpdateJacobiansAndVelocityBias_traced w).

Definition HasError (w : World F) : bool :=
  negb (fltb (fabs (error (this w))) ftolerance).

(** The two components of the trace of a recomputation. *)
Definition branchTaken (w : World F) : Branch :=
  taken (snd (UpdateJacobiansAndVelocityBias_traced w)).
Definition divisionsExecuted (w : World F) : list (F * F) :=
  divisions (snd (UpdateJacobiansAndVelocityBias_traced w)).

(** The world in which the field [error] holds [e] (what the solver reads
    through HasError after some recomputation left [e] there). *)
Definition havingError (e : F) (w : World F) : World F :=
  let j := this w in
  with_this w
    (mk (connectionA j) (connectionB j) (errorCorrectionFactor j) e
        (velocityBias j) (linearJacobianA j) (angularJacobianA j)
        (linearJacobianB j) (angularJacobianB j)
        (LocalAnchorA j) (LocalAnchorB j) (minimumDistance j) (maximumDistance j)).

End Methods.

(** What can happen to a constructed limit: its owner calls one of its methods,
    or the solver moves the bones between two calls. *)
Inductive Call (F : Type) : Type :=
| CallSetAnchorA (anchor : Vector3.t F)
| CallSetAnchorB (anchor : Vector3.t F)
| CallSetMinimumDistance (newDistance : F)
| CallSetMaximumDistance (newDistance : F)
| CallUpdateJacobiansAndVelocityBias
| SolverMovesBones (skeleton : BoneRef -> IKBone F).
Arguments CallSetAnchorA {F} _.
Arguments CallSetAnchorB {F} _.
Arguments CallSetMinimumDistance {F} _.
Arguments CallSetMaximumDistance {F} _.
Arguments CallUpdateJacobiansAndVelocityBias {F}.
Arguments SolverMovesBones {F} _.

Section Runs.
Context {F : Type} {ops : Scalar F} {tools : Toolbox F}.

Definition call (w : World F) (c : Call F) : World F :=
  match c with
  | CallSetAnchorA anchor => SetAnchorA anchor w
  | CallSetAnchorB anchor => SetAnchorB anchor w
  | CallSetMinimumDistance newDistance => SetMinimumDistance newDistance w
  | CallSetMaximumDistance newDistance => SetMaximumDistance newDistance w
  | CallUpdateJacobiansAndVelocityBias => UpdateJacobiansAndVelocityBias w
  | SolverMovesBones skeleton => mkWorld skeleton (this w)
  end.

Definition calls (cs : list (Call F)) (w : World F) : World F :=
  fold_left call cs w.

End Runs.
End IKDistanceLimit.

(** ** The two readings of [float] *)

(** IEEE 754 binary32, the [float] of the source: 24 bits of precision,
    round to nearest even, as specified by the Standard Library's SpecFloat. *)
Module Binary32.

Definition prec : Z := 24.
Definition emax : Z := 128.

Definition float : Type := spec_float.

(** The values of [spec_float] that are binary32 numbers: a finite one has
    its mantissa normalised for its exponent and its exponent in range. *)
Definition well_formed (x : float) : bool := valid_binary prec emax x.

(** The float nearest to an integer, and to a quotient of two integers (the
    value a decimal literal denotes). *)
Definition of_Z (n : Z) : float := binary_normalize prec emax n 0 false.
Definition of_ratio (n d : Z) : float := SFdiv prec emax (of_Z n) (of_Z d).

#[global] Instance Scalar_binary32 : Scalar float := {|
  fzero := S754_zero false;
  fhalf := S754_finite false 8388608 (-24);
  ftolerance := S754_finite false 13743895 (-37);
  fadd := SFadd prec emax;
  fsub := SFsub prec emax;
  fmul := SFmul prec emax;
  fdiv := SFdiv prec emax;
  fneg := SFopp;
  fabs := SFabs;
  fsqrt := SFsqrt prec emax;
  fltb := SFltb
|}.

(** Modelled from the spec: the "fixed small epsilon" of the utility module,
    here 1e-7f. *)
Definition Toolbox_binary32 : Toolbox float := {| Epsilon := of_ratio 1 10000000 |}.


End Binary32.

(** Exact arithmetic: [float] read as a real number. *)
Module Exact.

Definition Rltb (a b : R) : bool := if Rlt_dec a b then true else false.

#[global] Instance Scalar_R : Scalar R := {|
  fzero := 0%R;
  fhalf := (1 / 2)%R;
  ftolerance := (1 / 10000)%R;
  fadd := Rplus;
  fsub := Rminus;
  fmul := Rmult;
  fdiv := Rdiv;
  fneg := Ropp;
  fabs := Rabs;
  fsqrt := sqrt;
  fltb := Rltb
|}.

(** Modelled from the spec: the "fixed small epsilon", read as 1e-7. *)
Definition Toolbox_R : Toolbox R := {| Epsilon := (1 / 10000000)%R |}.

End Exact.

(** ** A two-bone scene

    Bone 0 sits at the origin and every other bone at [(d, 0, 0)], all with
    the identity orientation [(0, 0, 0, 1)].  The limit is constructed on
    bones 0 and 1 with its anchors at the two bone positions, so that the
    anchors are [d] apart. *)
Module Scene.
Section Scene.
Context {F : Type} {ops : Scalar F} {tools : Toolbox F}.
Variable one : F.

Definition identity : Quaternion.t F := Quaternion.mk fzero fzero fzero one.

Definition skeleton (d : F) : BoneRef -> IKBone F :=
  fun r =>
    match r with
    | O => mkBone Vector3.zero identity
    | S _ => mkBone (Vector3.mk d fzero fzero) identity
    end.

(** The object as allocated: correction factor [k], everything else zero. *)
Definition fresh (k : F) : IKDistanceLimit.t F :=
  IKDistanceLimit.mk 0 0 k fzero Vector3.zero
    Matrix3X3.zero Matrix3X3.zero Matrix3X3.zero Matrix3X3.zero
    Vector3.zero Vector3.zero fzero fzero.

Definition scene (k d minimumDistance maximumDistance : F) : IKDistanceLimit.World F :=
  IKDistanceLimit.IKDistanceLimit (skeleton d) (fresh k) 0 1
    Vector3.zero (Vector3.mk d fzero fzero) minimumDistance maximumDistance.

End Scene.
End Scene.

(** The scene at binary32, with correction factor 0.2f and integer distances. *)
Definition scene32 (d minimumDistance maximumDistance : Z) : IKDistanceLimit.World Binary32.float :=
  Scene.scene (Binary32.of_Z 1) (Binary32.of_ratio 1 5) (Binary32.of_Z d)
    (Binary32.of_Z minimumDistance) (Binary32.of_Z maximumDistance).

(** The scene in exact arithmetic, with correction factor 1/5. *)
Definition sceneR (d minimumDistance maximumDistance : R) : IKDistanceLimit.World R :=
  Scene.scene 1%R (1 / 5)%R d minimumDistance maximumDistance.

(** A bone turned by the orientation (3/5, 0, 0, 4/5) and placed at (1, 1, 1),
    for the anchor accessors. *)
Definition turnedBone : IKBone R :=
  mkBone (Vector3.mk 1 1 1)%R (Quaternion.mk (3 / 5) 0 0 (4 / 5))%R.

Definition turnedWorld : IKDistanceLimit.World R :=
  IKDistanceLimit.mkWorld (fun _ => turnedBone) (Scene.fresh (1 / 5)%R).

(** The same bone and world at binary32. *)
Definition turnedBone32 : IKBone Binary32.float :=
  mkBone (Vector3.mk (Binary32.of_Z 1) (Binary32.of_Z 1) (Binary32.of_Z 1))
         (Quaternion.mk (Binary32.of_ratio 3 5) fzero fzero (Binary32.of_ratio 4 5)).

Definition turnedWorld32 : IKDistanceLimit.World Binary32.float :=
  IKDistanceLimit.mkWorld (fun _ => turnedBone32) (Scene.fresh (Binary32.of_ratio 1 5)).

(** The scene with a bone whose position is not a number, at binary32. *)
Definition sceneNaN32 : IKDistanceLimit.World Binary32.float :=
  Scene.scene (Binary32.of_Z 1) (Binary32.of_ratio 1 5) S754_nan
    (Binary32.of_Z 2) (Binary32.of_Z 5).

(** The scene with anchors 3 apart and an open band: minimumDistance 0 and
    maximumDistance +infinity, at binary32. *)
Definition sceneOpen32 : IKDistanceLimit.World Binary32.float :=
  Scene.scene (Binary32.of_Z 1) (Binary32.of_ratio 1 5) (Binary32.of_Z 3)
    fzero (S754_infinity false).

(** The scene with anchors 3 apart and bounds that are not numbers. *)
Definition sceneNaNBounds32 : IKDistanceLimit.World Binary32.float :=
  Scene.scene (Binary32.of_Z 1) (Binary32.of_ratio 1 5) (Binary32.of_Z 3)
    S754_nan S754_nan.

(** The same limit with the roles of its two connections exchanged: bone B
    and its local anchor in the place of bone A and its local anchor, and
    conversely. *)
Definition swapConnections {F : Type} (w : IKDistanceLimit.World F) :
    IKDistanceLimit.World F :=
  let j := IKDistanceLimit.this w in
  IKDistanceLimit.mkWorld (IKDistanceLimit.bones w)
    (IKDistanceLimit.mk
       (IKDistanceLimit.connectionB j) (IKDistanceLimit.connectionA j)
       (IKDistanceLimit.errorCorrectionFactor j) (IKDistanceLimit.error j)
       (IKDistanceLimit.velocityBias j)
       (IKDistanceLimit.linearJacobianA j) (IKDistanceLimit.angularJacobianA j)
       (IKDistanceLimit.linearJacobianB j) (IKDistanceLimit.angularJacobianB j)
       (IKDistanceLimit.LocalAnchorB j) (IKDistanceLimit.LocalAnchorA j)
       (IKDistanceLimit.minimumDistance j) (IKDistanceLimit.maximumDistance j)).

(** ** Properties that hold for every reading of [float] *)

Import IKDistanceLimit.

Section Generic.
Context {F : Type} {ops : Scalar F} {tools : Toolbox F}.

(** The derived state after a recomputation, field by field. *)
Lemma Update_error (w : World F) :
  error (this (UpdateJacobiansAndVelocityBias w)) = p_error (policy w).
Proof. reflexivity. Qed.

Lemma Update_velocityBias (w : World F) :
  velocityBias (this (UpdateJacobiansAndVelocityBias w)) = p_velocityBias (policy w).
Proof. reflexivity. Qed.

Lemma Update_trace (w : World F) :
  snd (UpdateJacobiansAndVelocityBias_traced w) = p_trace (policy w).
Proof. reflexivity. Qed.

Lemma Row1_eta (v : Vector3.t F) :
  Vector3.mk (Vector3.X v) (Vector3.Y v) (Vector3.Z v) = v.
Proof. destruct v; reflexivity. Qed.

Lemma Update_linearA (w : World F) :
  Matrix3X3.Row1 (linearJacobianA (this (UpdateJacobiansAndVelocityBias w))) =
  p_linearA (policy w).
Proof. cbn. apply Row1_eta. Qed.

Lemma Update_linearB (w : World F) :
  Matrix3X3.Row1 (linearJacobianB (this (UpdateJacobiansAndVelocityBias w))) =
  Vector3.Negate (p_linearA (policy w)).
Proof. reflexivity. Qed.

Lemma Update_angularA (w : World F) :
  Matrix3X3.Row1 (angularJacobianA (this (UpdateJacobiansAndVelocityBias w))) =
  Vector3.Cross (offsetA w) (p_linearA (policy w)).
Proof. reflexivity. Qed.

Lemma Update_angularB (w : World F) :
  Matrix3X3.Row1 (angularJacobianB (this (UpdateJacobiansAndVelocityBias w))) =
  Vector3.Cross (p_linearA (policy w)) (offsetB w).
Proof. reflexivity. Qed.

(** The if-chain, one lemma per branch, each under the tests that lead to it. *)
Lemma policy_Degenerate (w : World F) :
  fgtb (currentDistance w) Epsilon = false ->
  policy w = mkPolicy fzero Vector3.zero Vector3.zero (mkTrace Degenerate []).
Proof. intros Hd. unfold policy. rewrite Hd. reflexivity. Qed.

Lemma policy_ExceedsMaximum (w : World F) :
  fgtb (currentDistance w) Epsilon = true ->
  fgtb (currentDistance w) (maximumDistance (this w)) = true ->
  policy w =
  mkPolicy (fsub (currentDistance w) (maximumDistance (this w)))
           (Vector3.mk (fmul (errorCorrectionFactor (this w))
                             (fsub (currentDistance w) (maximumDistance (this w))))
                       fzero fzero)
           (unitSeparation w)
           (mkTrace ExceedsMaximum (unitSeparation_divisions w)).
Proof. intros He Hmax. unfold policy. rewrite He, Hmax. reflexivity. Qed.

Lemma policy_ExceedsMinimum (w : World F) :
  fgtb (currentDistance w) Epsilon = true ->
  fgtb (currentDistance w) (maximumDistance (this w)) = false ->
  fltb (currentDistance w) (minimumDistance (this w)) = true ->
  policy w =
  mkPolicy (fsub (minimumDistance (this w)) (currentDistance w))
           (Vector3.mk (fmul (errorCorrectionFactor (this w))
                             (fsub (minimumDistance (this w)) (currentDistance w)))
                       fzero fzero)
           (Vector3.Negate (unitSeparation w))
           (mkTrace ExceedsMinimum (unitSeparation_divisions w)).
Proof. intros He Hmax Hmin. unfold policy. rewrite He, Hmax, Hmin. reflexivity. Qed.

Lemma policy_CloserToMaximum (w : World F) :
  fgtb (currentDistance w) Epsilon = true ->
  fgtb (currentDistance w) (maximumDistance (this w)) = false ->
  fltb (currentDistance w) (minimumDistance (this w)) = false ->
  fgtb (fsub (currentDistance w) (minimumDistance (this w)))
       (fmul (fsub (maximumDistance (this w)) (minimumDistance (this w))) fhalf) = true ->
  policy w =
  mkPolicy fzero
           (Vector3.mk (fsub (currentDistance w) (maximumDistance (this w))) fzero fzero)
           (unitSeparation w)
           (mkTrace CloserToMaximum (unitSeparation_divisions w)).
Proof.
  intros He Hmax Hmin Hmid. unfold policy. rewrite He, Hmax, Hmin, Hmid. reflexivity.
Qed.

Lemma policy_CloserToMinimum (w : World F) :
  fgtb (currentDistance w) Epsilon = true ->
  fgtb (currentDistance w) (maximumDistance (this w)) = false ->
  fltb (currentDistance w) (minimumDistance (this w)) = false ->
  fgtb (fsub (currentDistance w) (minimumDistance (this w)))
       (fmul (fsub (maximumDistance (this w)) (minimumDistance (this w))) fhalf) = false ->
  policy w =
  mkPolicy fzero
           (Vector3.mk (fsub (minimumDistance (this w)) (currentDistance w)) fzero fzero)
           (Vector3.Negate (unitSeparation w))
           (mkTrace CloserToMinimum (unitSeparation_divisions w)).
Proof.
  intros He Hmax Hmin Hmid. unfold policy. rewrite He, Hmax, Hmin, Hmid. reflexivity.
Qed.

(** Every division a recomputation executes divides by [currentDistance], and
    it executes one only under the guard [currentDistance > Epsilon]. *)
Lemma divisions_guarded (w : World F) (a d : F) :
  In (a, d) (divisions (snd (UpdateJacobiansAndVelocityBias_traced w))) ->
  d = currentDistance w /\ fgtb (currentDistance w) Epsilon = true.
Proof.
  rewrite Update_trace.
  assert (Hin : In (a, d) (unitSeparation_divisions w) -> d = currentDistance w).
  { unfold unitSeparation_divisions. cbn.
    intros [E | [E | [E | []]]]; inversion E; reflexivity. }
  destruct (fgtb (currentDistance w) Epsilon) eqn:He.
  - destruct (fgtb (currentDistance w) (maximumDistance (this w))) eqn:Hmax.
    { rewrite policy_ExceedsMaximum by assumption. cbn. auto. }
    destruct (fltb (currentDistance w) (minimumDistance (this w))) eqn:Hmin.
    { rewrite policy_ExceedsMinimum by assumption. cbn. auto. }
    destruct (fgtb (fsub (currentDistance w) (minimumDistance (this w)))
                   (fmul (fsub (maximumDistance (this w)) (minimumDistance (this w)))
                         fhalf)) eqn:Hmid.
    { rewrite policy_CloserToMaximum by assumption. cbn. auto. }
    rewrite policy_CloserToMinimum by assumption. cbn. auto.
  - rewrite policy_Degenerate by assumption. cbn. intros [].
Qed.

(** In the degenerate case nothing is divided and everything derived is zero
    (the row of bone B holds the negated zeros). *)
Lemma degenerate_generic (w : World F) :
  fgtb (currentDistance w) Epsilon = false ->
  divisionsExecuted w = [] /\
  branchTaken w = Degenerate /\
  error (this (UpdateJacobiansAndVelocityBias w)) = fzero /\
  velocityBias (this (UpdateJacobiansAndVelocityBias w)) = Vector3.zero /\
  Matrix3X3.Row1 (linearJacobianA (this (UpdateJacobiansAndVelocityBias w))) = Vector3.zero /\
  Matrix3X3.Row1 (linearJacobianB (this (UpdateJacobiansAndVelocityBias w))) =
    Vector3.Negate Vector3.zero.
Proof.
  intros Hd. unfold divisionsExecuted, branchTaken.
  rewrite Update_trace, Update_error, Update_velocityBias, Update_linearA, Update_linearB.
  rewrite (policy_Degenerate w Hd). cbn. repeat split.
Qed.

(** The populated angular rows are the two cross products of the source. *)
Lemma cross_products_stored (w : World F) :
  Matrix3X3.Row1 (angularJacobianA (this (UpdateJacobiansAndVelocityBias w))) =
    Vector3.Cross
      (Quaternion.Transform (LocalAnchorA (this w)) (Orientation (boneA w)))
      (Matrix3X3.Row1 (linearJacobianA (this (UpdateJacobiansAndVelocityBias w)))) /\
  Matrix3X3.Row1 (angularJacobianB (this (UpdateJacobiansAndVelocityBias w))) =
    Vector3.Cross
      (Matrix3X3.Row1 (linearJacobianA (this (UpdateJacobiansAndVelocityBias w))))
      (Quaternion.Transform (LocalAnchorB (this w)) (Orientation (boneB w))).
Proof.
  rewrite Update_angularA, Update_angularB, Update_linearA. split; reflexivity.
Qed.

(** Inside the band (neither violation test succeeds) and above Epsilon: no
    error, and the slack of the nearer bound, with the direction that goes
    with it. *)
Lemma inside_band_generic (w : World F) :
  fgtb (currentDistance w) Epsilon = true ->
  fgtb (currentDistance w) (maximumDistance (this w)) = false ->
  fltb (currentDistance w) (minimumDistance (this w)) = false ->
  error (this (UpdateJacobiansAndVelocityBias w)) = fzero /\
  (fgtb (fsub (currentDistance w) (minimumDistance (this w)))
        (fmul (fsub (maximumDistance (this w)) (minimumDistance (this w))) fhalf) = true ->
   branchTaken w = CloserToMaximum /\
   velocityBias (this (UpdateJacobiansAndVelocityBias w)) =
     Vector3.mk (fsub (currentDistance w) (maximumDistance (this w))) fzero fzero /\
   Matrix3X3.Row1 (linearJacobianA (this (UpdateJacobiansAndVelocityBias w))) =
     unitSeparation w) /\
  (fgtb (fsub (currentDistance w) (minimumDistance (this w)))
        (fmul (fsub (maximumDistance (this w)) (minimumDistance (this w))) fhalf) = false ->
   branchTaken w = CloserToMinimum /\
   velocityBias (this (UpdateJacobiansAndVelocityBias w)) =
     Vector3.mk (fsub (minimumDistance (this w)) (currentDistance w)) fzero fzero /\
   Matrix3X3.Row1 (linearJacobianA (this (UpdateJacobiansAndVelocityBias w))) =
     Vector3.Negate (unitSeparation w)).
Proof.
  intros He Hmax Hmin. unfold branchTaken.
  rewrite Update_trace, Update_error, Update_velocityBias, Update_linearA.
  split; [| split].
  - destruct (fgtb (fsub (currentDistance w) (minimumDistance (this w)))
                   (fmul (fsub (maximumDistance (this w)) (minimumDistance (this w)))
                         fhalf)) eqn:Hmid.
    + rewrite (policy_CloserToMaximum w He Hmax Hmin Hmid). reflexivity.
    + rewrite (policy_CloserToMinimum w He Hmax Hmin Hmid). reflexivity.
  - intros Hmid. rewrite (policy_CloserToMaximum w He Hmax Hmin Hmid).
    cbn [p_trace p_velocityBias p_linearA taken].
    split; [reflexivity |]. split; reflexivity.
  - intros Hmid. rewrite (policy_CloserToMinimum w He Hmax Hmin Hmid).
    cbn [p_trace p_velocityBias p_linearA taken].
    split; [reflexivity |]. split; reflexivity.
Qed.

(** On the boundary of an ordered band neither violation test succeeds, so
    that the recomputation takes an inside-band branch (or the degenerate
    one) and leaves no error. *)
Lemma boundary_generic {laws : OrderedScalar F} (w : World F) :
  fltb (minimumDistance (this w)) (maximumDistance (this w)) = true ->
  currentDistance w = maximumDistance (this w) \/
  currentDistance w = minimumDistance (this w) ->
  fgtb (currentDistance w) (maximumDistance (this w)) = false /\
  fltb (currentDistance w) (minimumDistance (this w)) = false /\
  branchTaken w <> ExceedsMaximum /\
  branchTaken w <> ExceedsMinimum /\
  (fgtb (currentDistance w) Epsilon = true ->
   branchTaken w = CloserToMaximum \/ branchTaken w = CloserToMinimum) /\
  error (this (UpdateJacobiansAndVelocityBias w)) = fzero /\
  HasError (UpdateJacobiansAndVelocityBias w) = false.
Proof.
  intros Hord Hcd.
  assert (Hmax : fgtb (currentDistance w) (maximumDistance (this w)) = false).
  { unfold fgtb. destruct Hcd as [-> | ->]; [apply fltb_irrefl |].
    apply fltb_asym. exact Hord. }
  assert (Hmin : fltb (currentDistance w) (minimumDistance (this w)) = false).
  { destruct Hcd as [-> | ->]; [| apply fltb_irrefl].
    apply fltb_asym. exact Hord. }
  split; [exact Hmax |]. split; [exact Hmin |].
  assert (Hpol :
    branchTaken w <> ExceedsMaximum /\
    branchTaken w <> ExceedsMinimum /\
    (fgtb (currentDistance w) Epsilon = true ->
     branchTaken w = CloserToMaximum \/ branchTaken w = CloserToMinimum) /\
    error (this (UpdateJacobiansAndVelocityBias w)) = fzero).
  { unfold branchTaken. rewrite Update_trace, Update_error.
    destruct (fgtb (currentDistance w) Epsilon) eqn:He.
    - destruct (fgtb (fsub (currentDistance w) (minimumDistance (this w)))
                     (fmul (fsub (maximumDistance (this w)) (minimumDistance (this w)))
                           fhalf)) eqn:Hmid.
      + rewrite (policy_CloserToMaximum w He Hmax Hmin Hmid). cbn [p_trace p_error taken].
        split; [discriminate |]. split; [discriminate |].
        split; [intros _; left; reflexivity | reflexivity].
      + rewrite (policy_CloserToMinimum w He Hmax Hmin Hmid). cbn [p_trace p_error taken].
        split; [discriminate |]. split; [discriminate |].
        split; [intros _; right; reflexivity | reflexivity].
    - rewrite (policy_Degenerate w He). cbn [p_trace p_error taken].
      split; [discriminate |]. split; [discriminate |].
      split; [discriminate | reflexivity]. }
  destruct Hpol as (H1 & H2 & H3 & Herr).
  split; [exact H1 |]. split; [exact H2 |]. split; [exact H3 |].
  split; [exact Herr |].
  unfold HasError. rewrite Herr, zero_within_tolerance. reflexivity.
Qed.

(** C1: in a recomputation whose currentDistance exceeds Epsilon, where
    separation = anchorB - anchorA (the two world anchors, as GetAnchorB and
    GetAnchorA return them) and currentDistance is the length of separation,
    the violation tests are tried in order.  If currentDistance >
    maximumDistance, the branch taken is the upper violation: error =
    currentDistance - maximumDistance, velocityBias = (errorCorrectionFactor *
    error, 0, 0) and the stored linear direction is unit(separation), that is
    the vector (separation.X / currentDistance, separation.Y /
    currentDistance, separation.Z / currentDistance).  Otherwise, if
    currentDistance < minimumDistance, the branch taken is the lower
    violation: error = minimumDistance - currentDistance, velocityBias =
    (errorCorrectionFactor * error, 0, 0) and the stored direction is the
    negation of unit(separation), the vector (-(separation.X /
    currentDistance), -(separation.Y / currentDistance), -(separation.Z /
    currentDistance)).  Holds for every reading of float, with the quotients
    and negations being those of that reading. *)
Theorem violation_branches (w : World F) :
  fgtb (currentDistance w) Epsilon = true ->
  separation w = Vector3.Subtract (GetAnchorB w) (GetAnchorA w) /\
  currentDistance w =
    Vector3.Length (Vector3.Subtract (GetAnchorB w) (GetAnchorA w)) /\
  (fgtb (currentDistance w) (maximumDistance (this w)) = true ->
   branchTaken w = ExceedsMaximum /\
   error (this (UpdateJacobiansAndVelocityBias w)) =
     fsub (currentDistance w) (maximumDistance (this w)) /\
   velocityBias (this (UpdateJacobiansAndVelocityBias w)) =
     Vector3.mk (fmul (errorCorrectionFactor (this w))
                      (error (this (UpdateJacobiansAndVelocityBias w))))
                fzero fzero /\
   Matrix3X3.Row1 (linearJacobianA (this (UpdateJacobiansAndVelocityBias w))) =
     Vector3.mk
       (fdiv (Vector3.X (Vector3.Subtract (GetAnchorB w) (GetAnchorA w)))
             (Vector3.Length (Vector3.Subtract (GetAnchorB w) (GetAnchorA w))))
       (fdiv (Vector3.Y (Vector3.Subtract (GetAnchorB w) (GetAnchorA w)))
             (Vector3.Length (Vector3.Subtract (GetAnchorB w) (GetAnchorA w))))
       (fdiv (Vector3.Z (Vector3.Subtract (GetAnchorB w) (GetAnchorA w)))
             (Vector3.Length (Vector3.Subtract (GetAnchorB w) (GetAnchorA w))))) /\
  (fgtb (currentDistance w) (maximumDistance (this w)) = false ->
   fltb (currentDistance w) (minimumDistance (this w)) = true ->
   branchTaken w = ExceedsMinimum /\
   error (this (UpdateJacobiansAndVelocityBias w)) =
     fsub (minimumDistance (this w)) (currentDistance w) /\
   velocityBias (this (UpdateJacobiansAndVelocityBias w)) =
     Vector3.mk (fmul (errorCorrectionFactor (this w))
                      (error (this (UpdateJacobiansAndVelocityBias w))))
                fzero fzero /\
   Matrix3X3.Row1 (linearJacobianA (this (UpdateJacobiansAndVelocityBias w))) =
     Vector3.mk
       (fneg (fdiv (Vector3.X (Vector3.Subtract (GetAnchorB w) (GetAnchorA w)))
                   (Vector3.Length (Vector3.Subtract (GetAnchorB w) (GetAnchorA w)))))
       (fneg (fdiv (Vector3.Y (Vector3.Subtract (GetAnchorB w) (GetAnchorA w)))
                   (Vector3.Length (Vector3.Subtract (GetAnchorB w) (GetAnchorA w)))))
       (fneg (fdiv (Vector3.Z (Vector3.Subtract (GetAnchorB w) (GetAnchorA w)))
                   (Vector3.Length (Vector3.Subtract (GetAnchorB w) (GetAnchorA w)))))).
Proof.
  intros He. split; [reflexivity |]. split; [reflexivity |]. unfold branchTaken.
  rewrite Update_trace, Update_error, Update_velocityBias, Update_linearA.
  split.
  - intros Hmax. rewrite (policy_ExceedsMaximum w He Hmax). cbn. repeat split.
  - intros Hmax Hmin. rewrite (policy_ExceedsMinimum w He Hmax Hmin). cbn. repeat split.
Qed.

(** C4: after every recomputation, degenerate or not, the first row of
    linearJacobianB is the componentwise negation of the first row of
    linearJacobianA, and the second and third rows of the four Jacobian
    matrices are zero.  Holds for every reading of float. *)
Theorem jacobian_rows (w : World F) :
  Matrix3X3.Row1 (linearJacobianB (this (UpdateJacobiansAndVelocityBias w))) =
    Vector3.Negate
      (Matrix3X3.Row1 (linearJacobianA (this (UpdateJacobiansAndVelocityBias w)))) /\
  (Matrix3X3.Row2 (linearJacobianA (this (UpdateJacobiansAndVelocityBias w))) = Vector3.zero /\
   Matrix3X3.Row3 (linearJacobianA (this (UpdateJacobiansAndVelocityBias w))) = Vector3.zero) /\
  (Matrix3X3.Row2 (linearJacobianB (this (UpdateJacobiansAndVelocityBias w))) = Vector3.zero /\
   Matrix3X3.Row3 (linearJacobianB (this (UpdateJacobiansAndVelocityBias w))) = Vector3.zero) /\
  (Matrix3X3.Row2 (angularJacobianA (this (UpdateJacobiansAndVelocityBias w))) = Vector3.zero /\
   Matrix3X3.Row3 (angularJacobianA (this (UpdateJacobiansAndVelocityBias w))) = Vector3.zero) /\
  (Matrix3X3.Row2 (angularJacobianB (this (UpdateJacobiansAndVelocityBias w))) = Vector3.zero /\
   Matrix3X3.Row3 (angularJacobianB (this (UpdateJacobiansAndVelocityBias w))) = Vector3.zero).
Proof.
  rewrite Update_linearB, Update_linearA. repeat split.
Qed.

(** A recomputation does not read what it writes: recomputing from its own
    result gives that result again. *)
Lemma recomputation_idempotent (w : World F) :
  UpdateJacobiansAndVelocityBias (UpdateJacobiansAndVelocityBias w) =
  UpdateJacobiansAndVelocityBias w.
Proof. reflexivity. Qed.

(** Nor does a setter or a move of the bones change what an earlier
    recomputation stored in the derived state. *)
Lemma setters_keep_error (w : World F) (c : Call F) :
  c <> CallUpdateJacobiansAndVelocityBias ->
  error (this (call w c)) = error (this w).
Proof. destruct c; intros Hc; try reflexivity. contradiction Hc; reflexivity. Qed.

(** C9: a recomputation writes only the derived state.  The local anchors,
    the two distance bounds, the two bone references (and the error
    correction factor) of the limit are what they were, and so is every bone
    of the store.  Holds for every reading of float. *)
Theorem recomputation_frame (w : World F) :
  LocalAnchorA (this (UpdateJacobiansAndVelocityBias w)) = LocalAnchorA (this w) /\
  LocalAnchorB (this (UpdateJacobiansAndVelocityBias w)) = LocalAnchorB (this w) /\
  minimumDistance (this (UpdateJacobiansAndVelocityBias w)) = minimumDistance (this w) /\
  maximumDistance (this (UpdateJacobiansAndVelocityBias w)) = maximumDistance (this w) /\
  connectionA (this (UpdateJacobiansAndVelocityBias w)) = connectionA (this w) /\
  connectionB (this (UpdateJacobiansAndVelocityBias w)) = connectionB (this w) /\
  errorCorrectionFactor (this (UpdateJacobiansAndVelocityBias w)) =
    errorCorrectionFactor (this w) /\
  bones (UpdateJacobiansAndVelocityBias w) = bones w.
Proof. repeat split. Qed.

End Generic.

(** ** Properties in exact arithmetic *)

Section ExactArithmetic.
Import Exact.
Local Open Scope R_scope.

Lemma Rltb_true (a b : R) : Rltb a b = true <-> a < b.
Proof. unfold Rltb. destruct (Rlt_dec a b); split; intros; try lra; discriminate. Qed.

Lemma Rltb_false (a b : R) : Rltb a b = false <-> b <= a.
Proof. unfold Rltb. destruct (Rlt_dec a b); split; intros; try lra; discriminate. Qed.

Lemma fgtb_R_true (a b : R) : fgtb a b = true <-> a > b.
Proof. unfold fgtb. cbn. rewrite Rltb_true. lra. Qed.

Lemma fgtb_R_false (a b : R) : fgtb a b = false <-> a <= b.
Proof. unfold fgtb. cbn. rewrite Rltb_false. lra. Qed.

Lemma fltb_R_true (a b : R) : fltb a b = true <-> a < b.
Proof. cbn. apply Rltb_true. Qed.

Lemma fltb_R_false (a b : R) : fltb a b = false <-> b <= a.
Proof. cbn. apply Rltb_false. Qed.

Lemma OrderedScalar_R : OrderedScalar R.
Proof.
  split.
  - intros a b Hab. apply fltb_R_true in Hab. apply fltb_R_false. lra.
  - intros a. apply fltb_R_false. lra.
  - cbn. rewrite Rabs_R0. apply Rltb_true. lra.
Qed.

(** The clamp helper is the maximum of the reals. *)
Lemma Max_Rmax (a b : R) : MathHelper.Max a b = Rmax a b.
Proof.
  unfold MathHelper.Max. destruct (fgtb a b) eqn:E.
  - apply fgtb_R_true in E. rewrite Rmax_left; lra.
  - apply fgtb_R_false in E. rewrite Rmax_right; lra.
Qed.

(** The rotation, written out: the matrix of the orientation applied to the
    vector. *)
Lemma Transform_R (v : Vector3.t R) (q : Quaternion.t R) :
  Quaternion.Transform v q =
  let x := Quaternion.X q in let y := Quaternion.Y q in
  let z := Quaternion.Z q in let w := Quaternion.W q in
  let vx := Vector3.X v in let vy := Vector3.Y v in let vz := Vector3.Z v in
  Vector3.mk
    ((w * w + x * x - y * y - z * z) * vx + 2 * (x * y - w * z) * vy + 2 * (x * z + w * y) * vz)
    (2 * (x * y + w * z) * vx + (w * w - x * x + y * y - z * z) * vy + 2 * (y * z - w * x) * vz)
    (2 * (x * z - w * y) * vx + 2 * (y * z + w * x) * vy + (w * w - x * x - y * y + z * z) * vz).
Proof.
  destruct v as [vx vy vz], q as [x y z w].
  cbv [Quaternion.Transform Quaternion.Multiply Quaternion.Conjugate
       Quaternion.X Quaternion.Y Quaternion.Z Quaternion.W
       Vector3.X Vector3.Y Vector3.Z fadd fsub fmul fneg fzero Scalar_R].
  f_equal; ring.
Qed.

(** Rotating by the conjugate and then by the orientation scales a vector by
    the fourth power of the orientation's norm: for an orientation of norm
    one it is the identity. *)
Lemma Transform_Conjugate_Transform (v : Vector3.t R) (q : Quaternion.t R) :
  Quaternion.LengthSquared q = 1 ->
  Quaternion.Transform (Quaternion.Transform v (Quaternion.Conjugate q)) q = v.
Proof.
  intros Hq. rewrite !Transform_R.
  destruct v as [vx vy vz], q as [x y z w].
  cbv [Quaternion.LengthSquared Quaternion.Conjugate
       Quaternion.X Quaternion.Y Quaternion.Z Quaternion.W
       Vector3.X Vector3.Y Vector3.Z fadd fsub fmul fneg fzero Scalar_R] in *.
  set (N := x * x + y * y + z * z + w * w) in *.
  f_equal.
  - transitivity (N * N * vx); [unfold N; ring | rewrite Hq; ring].
  - transitivity (N * N * vy); [unfold N; ring | rewrite Hq; ring].
  - transitivity (N * N * vz); [unfold N; ring | rewrite Hq; ring].
Qed.

Lemma Add_Subtract_cancel (p a : Vector3.t R) :
  Vector3.Add p (Vector3.Subtract a p) = a.
Proof.
  destruct p, a. unfold Vector3.Add, Vector3.Subtract. cbn. f_equal; ring.
Qed.

(** Swapping the arguments of the cross product negates one of them. *)
Lemma Cross_swap (a b : Vector3.t R) :
  Vector3.Cross a b = Vector3.Cross b (Vector3.Negate a).
Proof.
  destruct a, b. unfold Vector3.Cross, Vector3.Negate. cbn. f_equal; ring.
Qed.

Lemma Negate_zero : Vector3.Negate (Vector3.zero : Vector3.t R) = Vector3.zero.
Proof. unfold Vector3.Negate, Vector3.zero. cbn. f_equal; ring. Qed.

(** The length of a vector is not negative. *)
Lemma Length_nonneg (v : Vector3.t R) : 0 <= Vector3.Length v.
Proof. unfold Vector3.Length. cbn. apply sqrt_pos. Qed.

(** The four setters and a recomputation keep bounds that are not negative. *)
Lemma call_bounds (T : Toolbox R) (w : World R) (c : Call R) :
  0 <= minimumDistance (this w) /\ 0 <= maximumDistance (this w) ->
  0 <= minimumDistance (this (call w c)) /\ 0 <= maximumDistance (this (call w c)).
Proof.
  intros [Hmin Hmax]. destruct c; cbn; try (split; assumption).
  - split; [| assumption]. rewrite Max_Rmax. apply Rmax_l.
  - split; [assumption |]. rewrite Max_Rmax. apply Rmax_l.
Qed.

Lemma calls_bounds (T : Toolbox R) (cs : list (Call R)) (w : World R) :
  0 <= minimumDistance (this w) /\ 0 <= maximumDistance (this w) ->
  0 <= minimumDistance (this (calls cs w)) /\ 0 <= maximumDistance (this (calls cs w)).
Proof.
  revert w. induction cs as [| c cs IH]; intros w Hw; cbn.
  - exact Hw.
  - apply IH. apply call_bounds. exact Hw.
Qed.

Lemma constructor_bounds (skeleton : BoneRef -> IKBone R) (fresh : t R)
    (cA cB : BoneRef) (aA aB : Vector3.t R) (mn mx : R) :
  minimumDistance (this (IKDistanceLimit skeleton fresh cA cB aA aB mn mx)) = Rmax 0 mn /\
  maximumDistance (this (IKDistanceLimit skeleton fresh cA cB aA aB mn mx)) = Rmax 0 mx.
Proof. cbn. rewrite !Max_Rmax. split; reflexivity. Qed.

(** *** The two-bone scene in exact arithmetic *)

Lemma sceneR_separation (d mn mx : R) :
  separation (sceneR d mn mx) = Vector3.mk d 0 0.
Proof.
  unfold separation, anchorA, anchorB, offsetA, offsetB, boneA, boneB.
  cbn [sceneR Scene.scene IKDistanceLimit.IKDistanceLimit SetMaximumDistance
       SetMinimumDistance SetAnchorA SetAnchorB with_this this bones IKLimit
       boneA boneB connectionA connectionB LocalAnchorA LocalAnchorB
       Scene.skeleton Position Orientation].
  rewrite !Transform_R.
  cbv [Vector3.Subtract Vector3.Add Vector3.zero Scene.identity Quaternion.Conjugate
       Quaternion.X Quaternion.Y Quaternion.Z Quaternion.W
       Vector3.X Vector3.Y Vector3.Z fadd fsub fmul fneg fzero Scalar_R].
  f_equal; ring.
Qed.

Lemma sceneR_currentDistance (d mn mx : R) :
  0 <= d -> currentDistance (sceneR d mn mx) = d.
Proof.
  intros Hd. unfold currentDistance. rewrite sceneR_separation.
  unfold Vector3.Length. cbn.
  replace (d * d + 0 * 0 + 0 * 0) with (d * d) by ring.
  apply sqrt_square. exact Hd.
Qed.

Lemma sceneR_minimumDistance (d mn mx : R) :
  0 <= mn -> minimumDistance (this (sceneR d mn mx)) = mn.
Proof.
  intros Hmn. unfold sceneR, Scene.scene.
  rewrite (proj1 (constructor_bounds _ _ _ _ _ _ _ _)). apply Rmax_right. exact Hmn.
Qed.

Lemma sceneR_maximumDistance (d mn mx : R) :
  0 <= mx -> maximumDistance (this (sceneR d mn mx)) = mx.
Proof.
  intros Hmx. unfold sceneR, Scene.scene.
  rewrite (proj2 (constructor_bounds _ _ _ _ _ _ _ _)). apply Rmax_right. exact Hmx.
Qed.

(** The three numbers a recomputation of the scene compares. *)
Lemma sceneR_facts (d mn mx : R) :
  0 <= d -> 0 <= mn -> 0 <= mx ->
  currentDistance (sceneR d mn mx) = d /\
  minimumDistance (this (sceneR d mn mx)) = mn /\
  maximumDistance (this (sceneR d mn mx)) = mx.
Proof.
  intros Hd Hmn Hmx.
  split; [apply sceneR_currentDistance; exact Hd |].
  split; [apply sceneR_minimumDistance; exact Hmn |
          apply sceneR_maximumDistance; exact Hmx].
Qed.

(** *** The band policy in exact arithmetic *)

(** Inside the band, above Epsilon: the two slack branches. *)
Lemma band_CloserToMaximum (T : Toolbox R) (w : World R) :
  currentDistance w > Epsilon ->
  minimumDistance (this w) <= currentDistance w <= maximumDistance (this w) ->
  currentDistance w - minimumDistance (this w) >
    (maximumDistance (this w) - minimumDistance (this w)) * (1 / 2) ->
  policy w =
  mkPolicy 0
           (Vector3.mk (currentDistance w - maximumDistance (this w)) 0 0)
           (unitSeparation w)
           (mkTrace CloserToMaximum (unitSeparation_divisions w)).
Proof.
  intros He [Hlo Hhi] Hmid.
  refine (policy_CloserToMaximum w _ _ _ _).
  - apply fgtb_R_true; exact He.
  - apply fgtb_R_false; exact Hhi.
  - apply fltb_R_false; exact Hlo.
  - apply fgtb_R_true; exact Hmid.
Qed.

Lemma band_CloserToMinimum (T : Toolbox R) (w : World R) :
  currentDistance w > Epsilon ->
  minimumDistance (this w) <= currentDistance w <= maximumDistance (this w) ->
  currentDistance w - minimumDistance (this w) <=
    (maximumDistance (this w) - minimumDistance (this w)) * (1 / 2) ->
  policy w =
  mkPolicy 0
           (Vector3.mk (minimumDistance (this w) - currentDistance w) 0 0)
           (Vector3.Negate (unitSeparation w))
           (mkTrace CloserToMinimum (unitSeparation_divisions w)).
Proof.
  intros He [Hlo Hhi] Hmid.
  refine (policy_CloserToMinimum w _ _ _ _).
  - apply fgtb_R_true; exact He.
  - apply fgtb_R_false; exact Hhi.
  - apply fltb_R_false; exact Hlo.
  - apply fgtb_R_false; exact Hmid.
Qed.

Lemma band_Degenerate (T : Toolbox R) (w : World R) :
  currentDistance w <= Epsilon ->
  policy w = mkPolicy 0 Vector3.zero Vector3.zero (mkTrace Degenerate []).
Proof. intros He. refine (policy_Degenerate w _). apply fgtb_R_false; exact He. Qed.

(** Whatever the Epsilon, if it is not negative: coincident anchors are
    degenerate, also when minimumDistance is 0 and so equal to
    currentDistance. *)
Lemma coincident_is_degenerate (T : Toolbox R) (mn mx : R) :
  0 <= Epsilon -> branchTaken (sceneR 0 mn mx) = Degenerate.
Proof.
  intros Heps. unfold branchTaken. rewrite Update_trace.
  rewrite (@band_Degenerate T (sceneR 0 mn mx)); [reflexivity |].
  rewrite sceneR_currentDistance by lra. exact Heps.
Qed.

(** Zero is within the tolerance of HasError. *)
Lemma HasError_zero (w : World R) : error (this w) = 0 -> HasError w = false.
Proof.
  intros E. unfold HasError. rewrite E. cbn.
  rewrite Rabs_R0. rewrite (proj2 (Rltb_true 0 (1 / 10000))); [reflexivity | lra].
Qed.

(** No division by zero: with an Epsilon that is not negative, every division
    a recomputation executes has a divisor other than zero. *)
Lemma divisors_nonzero (T : Toolbox R) (w : World R) (a d : R) :
  0 <= Epsilon ->
  In (a, d) (divisionsExecuted w) -> d <> 0.
Proof.
  intros Heps Hin. apply divisions_guarded in Hin. destruct Hin as [-> Hg].
  apply fgtb_R_true in Hg. lra.
Qed.

End ExactArithmetic.

(** The facts of a scene with numerals for its three parameters. *)
Ltac scene_facts d mn mx Hcd Hmn Hmx :=
  destruct (@sceneR_facts d mn mx) as (Hcd & Hmn & Hmx); [lra | lra | lra |].

(** Closed goals over binary32 are settled by evaluation. *)
Ltac evaluate := vm_compute; reflexivity.

(** ** Properties in binary32 *)

Section Binary32Arithmetic.
Import Binary32.
Local Open Scope Z_scope.

(** The literals of the source are the floats nearest to their decimals. *)
Lemma literals_binary32 :
  (fhalf : float) = of_ratio 1 2 /\ (ftolerance : float) = of_ratio 1 10000.
Proof. split; vm_compute; reflexivity. Qed.

(** Comparing the other way round gives the opposite answer. *)
Lemma SFcompare_antisym (x y : float) :
  SFcompare y x = option_map CompOpp (SFcompare x y).
Proof.
  destruct x as [sx | sx | | sx mx ex], y as [sy | sy | | sy my ey];
    cbn [SFcompare option_map];
    try reflexivity;
    try (destruct sx; reflexivity); try (destruct sy; reflexivity);
    try (destruct sx, sy; reflexivity).
  assert (Hm : Pos.compare_cont Eq my mx = CompOpp (Pos.compare_cont Eq mx my))
    by (apply (Pos.compare_antisym mx my)).
  destruct sx, sy; cbn [CompOpp]; try reflexivity;
    rewrite (Z.compare_antisym ex ey), Hm;
    destruct (Z.compare ex ey); cbn [CompOpp]; try reflexivity.
Qed.

Lemma SFltb_asym (x y : float) : SFltb x y = true -> SFltb y x = false.
Proof.
  unfold SFltb. rewrite (SFcompare_antisym x y).
  destruct (SFcompare x y) as [[| |] |]; cbn; congruence.
Qed.

Lemma SFltb_irrefl (x : float) : SFltb x x = false.
Proof.
  destruct (SFltb x x) eqn:E; [| reflexivity].
  rewrite (SFltb_asym _ _ E) in E. discriminate.
Qed.

(** At or below is not above. *)
Lemma SFleb_not_gt (x y : float) : SFleb x y = true -> SFltb y x = false.
Proof.
  unfold SFleb, SFltb. rewrite (SFcompare_antisym x y).
  destruct (SFcompare x y) as [[| |] |]; cbn; congruence.
Qed.

(** The mantissa lies between the powers of two its number of digits names. *)
Lemma digits2_pos_bounds (m : positive) :
  2 ^ (Z.pos (digits2_pos m) - 1) <= Z.pos m < 2 ^ Z.pos (digits2_pos m).
Proof.
  induction m as [p IH | p IH |]; cbn [digits2_pos].
  - rewrite Pos2Z.inj_succ.
    replace (Z.succ (Z.pos (digits2_pos p)) - 1) with (Z.succ (Z.pos (digits2_pos p) - 1)) by lia.
    rewrite !Z.pow_succ_r by lia. lia.
  - rewrite Pos2Z.inj_succ.
    replace (Z.succ (Z.pos (digits2_pos p)) - 1) with (Z.succ (Z.pos (digits2_pos p) - 1)) by lia.
    rewrite !Z.pow_succ_r by lia. lia.
  - cbn. lia.
Qed.

(** A well-formed mantissa is below 2^24, its exponent is at least -149, and
    above that exponent the mantissa has all its 24 digits. *)
Lemma bounded_mantissa (m : positive) (e : Z) :
  bounded prec emax m e = true ->
  Z.pos m < 2 ^ 24 /\ -149 <= e /\ (-149 < e -> 2 ^ 23 <= Z.pos m).
Proof.
  unfold bounded, canonical_mantissa, fexp, emin, prec, emax.
  intros H. apply andb_prop in H. destruct H as [H _].
  apply Z.eqb_eq in H.
  pose proof (digits2_pos_bounds m) as [Hlo Hhi].
  assert (Hd : Z.pos (digits2_pos m) <= 24) by lia.
  split; [| split].
  - apply (Z.lt_le_trans _ _ _ Hhi). apply Z.pow_le_mono_r; lia.
  - lia.
  - intros He. assert (Hd' : Z.pos (digits2_pos m) = 24) by lia.
    rewrite Hd' in Hlo. exact Hlo.
Qed.

(** Aligning a mantissa to a lower exponent multiplies it by the power of two
    in between. *)
Lemma shl_align_value (m : positive) (e e' : Z) :
  e' <= e -> Z.pos (fst (shl_align m e e')) = Z.pos m * 2 ^ (e - e').
Proof.
  intros H. unfold shl_align.
  destruct (e' - e) as [| d | d] eqn:Hd; cbn [fst].
  - replace (e - e') with 0 by lia. lia.
  - lia.
  - change (Pos.iter xO m d) with (shift_pos d m).
    rewrite shift_pos_correct, Z.pow_pos_fold.
    replace (e - e') with (Z.pos d) by lia. lia.
Qed.

(** Rounding an integer that is not positive gives nothing above zero. *)
Lemma binary_normalize_not_positive (m e : Z) :
  m <= 0 -> SFltb (S754_zero false) (binary_normalize prec emax m e false) = false.
Proof.
  intros H. destruct m as [| p | p]; [reflexivity | lia |].
  cbn [binary_normalize]. unfold binary_round.
  destruct (shl_align p e _) as [mz ez].
  unfold binary_round_aux.
  destruct (shr_fexp prec emax (Z.pos mz) ez loc_Exact) as [mrs' e'].
  destruct (shr_fexp prec emax _ e' loc_Exact) as [mrs'' e''].
  destruct (shr_m mrs''); try reflexivity.
  destruct (Z.leb e'' (emax - prec)); reflexivity.
Qed.

(** The aligned mantissas of two well-formed floats whose exponents differ:
    the one with the higher exponent is the greater. *)
Lemma aligned_mantissas (mx my : positive) (ex ey : Z) :
  bounded prec emax mx ex = true -> bounded prec emax my ey = true ->
  ex < ey ->
  Z.pos (fst (shl_align mx ex (Z.min ex ey))) <
  Z.pos (fst (shl_align my ey (Z.min ex ey))).
Proof.
  intros Bx By Hlt.
  destruct (bounded_mantissa _ _ Bx) as (Hx & Hex & _).
  destruct (bounded_mantissa _ _ By) as (_ & _ & Hy).
  rewrite !shl_align_value by lia.
  replace (Z.min ex ey) with ex by lia.
  replace (ex - ex) with 0 by lia. rewrite Z.pow_0_r, Z.mul_1_r.
  assert (Hp : 2 ^ 1 <= 2 ^ (ey - ex)) by (apply Z.pow_le_mono_r; lia).
  assert (H23 : 2 ^ 23 <= Z.pos my) by (apply Hy; lia).
  change (2 ^ 1) with 2 in Hp. change (2 ^ 24) with 16777216 in Hx.
  change (2 ^ 23) with 8388608 in H23. nia.
Qed.

(** x - y is not above zero when x <= y, for well-formed x and y (a NaN
    difference, of two infinities, is not above zero either). *)
Lemma SFsub_not_positive (x y : float) :
  well_formed x = true -> well_formed y = true -> SFleb x y = true ->
  SFltb (S754_zero false) (SFsub prec emax x y) = false.
Proof.
  destruct x as [sx | sx | | sx mx ex], y as [sy | sy | | sy my ey];
    try (destruct sx; try destruct sy; intros _ _ H; (reflexivity || discriminate H));
    try (destruct sy; intros _ _ H; (reflexivity || discriminate H));
    try (intros _ _ H; (reflexivity || discriminate H)).
  unfold well_formed. cbn [valid_binary SFsub]. intros Bx By Hle.
  apply binary_normalize_not_positive.
  unfold SFleb in Hle. cbn [SFcompare] in Hle.
  pose proof (Pos2Z.is_pos (fst (shl_align mx ex (Z.min ex ey)))) as Px.
  pose proof (Pos2Z.is_pos (fst (shl_align my ey (Z.min ex ey)))) as Py.
  destruct sx, sy; cbn [cond_Zopp]; try lia; try discriminate Hle.
  - destruct (Z.compare_spec ex ey) as [He | He | He]; try discriminate Hle.
    + subst ey. rewrite !shl_align_value by lia.
      replace (ex - Z.min ex ex) with 0 by lia. rewrite Z.pow_0_r, !Z.mul_1_r.
      change (Pos.compare_cont Eq mx my) with (Pos.compare mx my) in Hle.
      destruct (Pos.compare_spec mx my); cbn in Hle; try discriminate Hle; lia.
    + pose proof (aligned_mantissas _ _ By Bx He) as H.
      rewrite (Z.min_comm ey ex) in H. lia.
  - destruct (Z.compare_spec ex ey) as [He | He | He]; try discriminate Hle.
    + subst ey. rewrite !shl_align_value by lia.
      replace (ex - Z.min ex ex) with 0 by lia. rewrite Z.pow_0_r, !Z.mul_1_r.
      change (Pos.compare_cont Eq mx my) with (Pos.compare mx my) in Hle.
      destruct (Pos.compare_spec mx my); cbn in Hle; try discriminate Hle; lia.
    + pose proof (aligned_mantissas _ _ Bx By He) as H. lia.
Qed.
(** Rounding an integer that is not negative gives nothing below zero. *)
Lemma binary_normalize_not_negative (m e : Z) :
  0 <= m -> SFltb (binary_normalize prec emax m e false) (S754_zero false) = false.
Proof.
  intros H. destruct m as [| p | p]; [reflexivity | | lia].
  cbn [binary_normalize]. unfold binary_round.
  destruct (shl_align p e _) as [mz ez].
  unfold binary_round_aux.
  destruct (shr_fexp prec emax (Z.pos mz) ez loc_Exact) as [mrs' e'].
  destruct (shr_fexp prec emax _ e' loc_Exact) as [mrs'' e''].
  destruct (shr_m mrs''); try reflexivity.
  destruct (Z.leb e'' (emax - prec)); reflexivity.
Qed.

(** x - y is not below zero when y <= x, for well-formed x and y. *)
Lemma SFsub_not_negative (x y : float) :
  well_formed x = true -> well_formed y = true -> SFleb y x = true ->
  SFltb (SFsub prec emax x y) (S754_zero false) = false.
Proof.
  destruct x as [sx | sx | | sx mx ex], y as [sy | sy | | sy my ey];
    try (destruct sx; try destruct sy; intros _ _ H; (reflexivity || discriminate H));
    try (destruct sy; intros _ _ H; (reflexivity || discriminate H));
    try (intros _ _ H; (reflexivity || discriminate H)).
  unfold well_formed. cbn [valid_binary SFsub]. intros Bx By Hle.
  apply binary_normalize_not_negative.
  unfold SFleb in Hle. cbn [SFcompare] in Hle.
  pose proof (Pos2Z.is_pos (fst (shl_align mx ex (Z.min ex ey)))) as Px.
  pose proof (Pos2Z.is_pos (fst (shl_align my ey (Z.min ex ey)))) as Py.
  destruct sx, sy; cbn [cond_Zopp]; try lia; try discriminate Hle.
  - destruct (Z.compare_spec ey ex) as [He | He | He]; try discriminate Hle.
    + subst ey. rewrite !shl_align_value by lia.
      replace (ex - Z.min ex ex) with 0 by lia. rewrite Z.pow_0_r, !Z.mul_1_r.
      change (Pos.compare_cont Eq my mx) with (Pos.compare my mx) in Hle.
      destruct (Pos.compare_spec my mx); cbn in Hle; try discriminate Hle; lia.
    + pose proof (aligned_mantissas _ _ Bx By He) as H. lia.
  - destruct (Z.compare_spec ey ex) as [He | He | He]; try discriminate Hle.
    + subst ey. rewrite !shl_align_value by lia.
      replace (ex - Z.min ex ex) with 0 by lia. rewrite Z.pow_0_r, !Z.mul_1_r.
      change (Pos.compare_cont Eq my mx) with (Pos.compare my mx) in Hle.
      destruct (Pos.compare_spec my mx); cbn in Hle; try discriminate Hle; lia.
    + pose proof (aligned_mantissas _ _ By Bx He) as H.
      rewrite (Z.min_comm ey ex) in H. lia.
Qed.

(** Below is at or below. *)
Lemma SFltb_SFleb (x y : float) : SFltb x y = true -> SFleb x y = true.
Proof.
  unfold SFltb, SFleb. destruct (SFcompare x y) as [[| |] |]; congruence.
Qed.

(** A float above an Epsilon that is not negative is not a zero. *)
Lemma above_Epsilon_nonzero (eps d : float) :
  SFleb fzero eps = true -> SFltb eps d = true -> SFeqb d fzero = false.
Proof.
  intros Heps Hd.
  destruct d as [s | s | | s m e]; try reflexivity; try (destruct s; reflexivity).
  assert (Hz : SFltb eps fzero = true).
  { rewrite <- Hd. destruct eps as [se | se | | se me ee]; reflexivity. }
  rewrite (SFleb_not_gt _ _ Heps) in Hz. discriminate.
Qed.

Lemma OrderedScalar_binary32 : OrderedScalar float.
Proof.
  split.
  - exact SFltb_asym.
  - exact SFltb_irrefl.
  - reflexivity.
Qed.

(** Rounding does not look at the sign. *)
Lemma binary_round_aux_opp (s : bool) (m e : Z) (l : location) :
  SFopp (binary_round_aux prec emax s m e l) = binary_round_aux prec emax (negb s) m e l.
Proof.
  unfold binary_round_aux.
  destruct (shr_fexp prec emax m e l) as [mrs' e'].
  destruct (shr_fexp prec emax _ e' loc_Exact) as [mrs'' e''].
  destruct (shr_m mrs''); try reflexivity.
  destruct (Z.leb e'' (emax - prec)); reflexivity.
Qed.

Lemma SFmul_comm (x y : float) : SFmul prec emax x y = SFmul prec emax y x.
Proof.
  destruct x as [sx | sx | | sx mx ex], y as [sy | sy | | sy my ey];
    cbn [SFmul];
    try reflexivity; try (rewrite (xorb_comm sx sy); reflexivity).
  rewrite (xorb_comm sx sy), (Pos.mul_comm mx my), (Z.add_comm ex ey). reflexivity.
Qed.

Lemma SFmul_opp_r (x y : float) :
  SFmul prec emax x (SFopp y) = SFopp (SFmul prec emax x y).
Proof.
  destruct x as [sx | sx | | sx mx ex], y as [sy | sy | | sy my ey];
    cbn [SFmul SFopp];
    try reflexivity; try (rewrite <- negb_xorb_r; reflexivity).
  rewrite binary_round_aux_opp, negb_xorb_r. reflexivity.
Qed.

Lemma cond_Zopp_negb (s : bool) (m : Z) : cond_Zopp (negb s) m = - cond_Zopp s m.
Proof. destruct s; cbn; lia. Qed.

Lemma SFsub_opp_opp (p q : float) :
  SFsub prec emax (SFopp p) (SFopp q) = SFsub prec emax q p.
Proof.
  destruct p as [sp | sp | | sp mp ep], q as [sq | sq | | sq mq eq];
    try reflexivity;
    try (destruct sp, sq; reflexivity);
    try (destruct sp; reflexivity);
    try (destruct sq; reflexivity).
  cbn [SFopp SFsub]. rewrite !cond_Zopp_negb, (Z.min_comm ep eq).
  f_equal. lia.
Qed.

(** Swapping the arguments of the cross product negates one of them, in
    binary32 as in exact arithmetic. *)
Lemma Cross_swap_binary32 (a b : Vector3.t float) :
  Vector3.Cross a b = Vector3.Cross b (Vector3.Negate a).
Proof.
  destruct a as [ax ay az], b as [bx by' bz].
  unfold Vector3.Cross, Vector3.Negate.
  cbn [Vector3.X Vector3.Y Vector3.Z fsub fmul fneg Scalar_binary32].
  rewrite !SFmul_opp_r, !SFsub_opp_opp.
  rewrite (SFmul_comm bz ay), (SFmul_comm by' az), (SFmul_comm bx az),
    (SFmul_comm bz ax), (SFmul_comm by' ax), (SFmul_comm bx ay).
  reflexivity.
Qed.

(** The negated zero of the degenerate row of bone B is a zero: it compares
    equal to 0. *)
Lemma Negate_zero_binary32 :
  Vector3.Negate (Vector3.zero : Vector3.t float) =
    Vector3.mk (S754_zero true) (S754_zero true) (S754_zero true) /\
  SFeqb (S754_zero true) fzero = true.
Proof. split; reflexivity. Qed.

(** No division by zero in binary32: with an Epsilon that is not negative,
    every division a recomputation executes has a divisor that is not a
    zero. *)
Lemma divisors_nonzero_binary32 (T : Toolbox float) (w : World float) (a d : float) :
  SFleb fzero Epsilon = true ->
  In (a, d) (divisionsExecuted w) -> SFeqb d fzero = false.
Proof.
  intros Heps Hin. apply divisions_guarded in Hin. destruct Hin as [-> Hg].
  exact (above_Epsilon_nonzero _ _ Heps Hg).
Qed.

(** The band [2, 5] of the specification's coverage table, computed in
    binary32 with correction factor 0.2f: anchors 6, 1 and 4 apart, the
    boundary distances 5 and 2, and coincident anchors. *)
Example scene32_above_maximum :
  branchTaken (tools := Toolbox_binary32) (scene32 6 2 5) = ExceedsMaximum /\
  error (this (UpdateJacobiansAndVelocityBias (tools := Toolbox_binary32) (scene32 6 2 5))) =
    of_Z 1 /\
  velocityBias (this (UpdateJacobiansAndVelocityBias (tools := Toolbox_binary32) (scene32 6 2 5))) =
    Vector3.mk (of_ratio 1 5) fzero fzero /\
  Matrix3X3.Row1
    (linearJacobianA (this (UpdateJacobiansAndVelocityBias (tools := Toolbox_binary32)
                              (scene32 6 2 5)))) =
    Vector3.mk (of_Z 1) fzero fzero.
Proof. vm_compute. repeat split. Qed.

Example scene32_below_minimum :
  branchTaken (tools := Toolbox_binary32) (scene32 1 2 5) = ExceedsMinimum /\
  error (this (UpdateJacobiansAndVelocityBias (tools := Toolbox_binary32) (scene32 1 2 5))) =
    of_Z 1 /\
  velocityBias (this (UpdateJacobiansAndVelocityBias (tools := Toolbox_binary32) (scene32 1 2 5))) =
    Vector3.mk (of_ratio 1 5) fzero fzero /\
  Matrix3X3.Row1
    (linearJacobianA (this (UpdateJacobiansAndVelocityBias (tools := Toolbox_binary32)
                              (scene32 1 2 5)))) =
    Vector3.mk (of_Z (-1)) (S754_zero true) (S754_zero true).
Proof. vm_compute. repeat split. Qed.

Example scene32_closer_to_maximum :
  branchTaken (tools := Toolbox_binary32) (scene32 4 2 5) = CloserToMaximum /\
  error (this (UpdateJacobiansAndVelocityBias (tools := Toolbox_binary32) (scene32 4 2 5))) =
    fzero /\
  velocityBias (this (UpdateJacobiansAndVelocityBias (tools := Toolbox_binary32) (scene32 4 2 5))) =
    Vector3.mk (of_Z (-1)) fzero fzero.
Proof. vm_compute. repeat split. Qed.

Example scene32_at_maximum :
  branchTaken (tools := Toolbox_binary32) (scene32 5 2 5) = CloserToMaximum /\
  velocityBias (this (UpdateJacobiansAndVelocityBias (tools := Toolbox_binary32) (scene32 5 2 5))) =
    Vector3.zero /\
  HasError (UpdateJacobiansAndVelocityBias (tools := Toolbox_binary32) (scene32 5 2 5)) = false.
Proof. vm_compute. repeat split. Qed.

Example scene32_at_minimum :
  branchTaken (tools := Toolbox_binary32) (scene32 2 2 5) = CloserToMinimum /\
  velocityBias (this (UpdateJacobiansAndVelocityBias (tools := Toolbox_binary32) (scene32 2 2 5))) =
    Vector3.zero /\
  HasError (UpdateJacobiansAndVelocityBias (tools := Toolbox_binary32) (scene32 2 2 5)) = false.
Proof. vm_compute. repeat split. Qed.

Example scene32_coincident :
  branchTaken (tools := Toolbox_binary32) (scene32 0 0 5) = Degenerate /\
  divisionsExecuted (tools := Toolbox_binary32) (scene32 0 0 5) = [] /\
  Matrix3X3.Row1
    (linearJacobianB (this (UpdateJacobiansAndVelocityBias (tools := Toolbox_binary32)
                              (scene32 0 0 5)))) =
    Vector3.mk (S754_zero true) (S754_zero true) (S754_zero true).
Proof. vm_compute. repeat split. Qed.

(** In binary32 the anchor round trip is exact only up to rounding: for the
    bone of turnedWorld read at binary32 (its orientation (0.6f, 0, 0, 0.8f)
    has squared norm exactly 1) and the point (1, 2, 3), the point read back
    is off by 2^-22 in two components, below the tolerance 0.0001f. *)
Example anchor_round_trip_binary32_rounds :
  Quaternion.LengthSquared (Orientation (boneA turnedWorld32)) = of_Z 1 /\
  Vector3.Subtract
    (GetAnchorA (SetAnchorA (Vector3.mk (of_Z 1) (of_Z 2) (of_Z 3)) turnedWorld32))
    (Vector3.mk (of_Z 1) (of_Z 2) (of_Z 3)) =
  Vector3.mk fzero (S754_finite false 8388608 (-45)) (S754_finite false 8388608 (-45)) /\
  fltb (S754_finite false 8388608 (-45)) ftolerance = true.
Proof. vm_compute. repeat split. Qed.

(** Nor is the error of the round trip below a fixed tolerance: with bone B
    at (2^25, 0, 0) and not turned (its orientation (0, 0, 0, 1) has squared
    norm 1), the point (1, 0, 0) is stored as the local anchor (-2^25, 0, 0),
    the difference 1 - 2^25 having no binary32 of its own, and read back as
    (0, 0, 0): off by 1, which is not below the tolerance 0.0001f. *)
Example anchor_round_trip_binary32_absorbs :
  Quaternion.LengthSquared (Orientation (boneB (scene32 33554432 0 0))) = of_Z 1 /\
  LocalAnchorB (this (SetAnchorB (Vector3.mk (of_Z 1) fzero fzero) (scene32 33554432 0 0))) =
    Vector3.mk (of_Z (-33554432)) fzero fzero /\
  GetAnchorB (SetAnchorB (Vector3.mk (of_Z 1) fzero fzero) (scene32 33554432 0 0)) =
    Vector3.mk fzero fzero fzero /\
  fltb (fabs (fsub (of_Z 1) fzero)) ftolerance = false.
Proof. vm_compute. repeat split. Qed.

(** The clamp in binary32: -3 is stored as 0 and 7 as 7. *)
Example distance_clamp_binary32 :
  GetMinimumDistance (SetMinimumDistance (of_Z (-3)) (scene32 0 0 0)) = fzero /\
  GetMaximumDistance (SetMaximumDistance (of_Z 7) (scene32 0 0 0)) = of_Z 7.
Proof. vm_compute. repeat split. Qed.

End Binary32Arithmetic.

(** ** The claims that rest on exact arithmetic *)

Section ExactClaims.
Import Exact.
Local Open Scope R_scope.

(** C2, as stated, fails on the boundary of the band: in the scene with
    anchors 5 apart, minimumDistance 2 and maximumDistance 5, the
    recomputation is not degenerate and inside the band, yet the slack it
    stores in velocityBias.x is 0, which is not negative.  In exact
    arithmetic and in binary32 alike. *)
Lemma slack_not_negative_on_boundary :
  (currentDistance (sceneR 5 2 5) > Epsilon (Toolbox := Toolbox_R) /\
   minimumDistance (this (sceneR 5 2 5)) <= currentDistance (sceneR 5 2 5)
     <= maximumDistance (this (sceneR 5 2 5)) /\
   Vector3.X (velocityBias
                (this (UpdateJacobiansAndVelocityBias (tools := Toolbox_R) (sceneR 5 2 5)))) = 0 /\
   ~ Vector3.X (velocityBias
                  (this (UpdateJacobiansAndVelocityBias (tools := Toolbox_R) (sceneR 5 2 5)))) < 0) /\
  (fgtb (currentDistance (scene32 5 2 5))
        (Epsilon (Toolbox := Binary32.Toolbox_binary32)) = true /\
   SFleb (minimumDistance (this (scene32 5 2 5))) (currentDistance (scene32 5 2 5)) = true /\
   SFleb (currentDistance (scene32 5 2 5)) (maximumDistance (this (scene32 5 2 5))) = true /\
   Vector3.X (velocityBias
                (this (UpdateJacobiansAndVelocityBias (tools := Binary32.Toolbox_binary32)
                         (scene32 5 2 5)))) = fzero /\
   fltb (Vector3.X (velocityBias
                      (this (UpdateJacobiansAndVelocityBias
                               (tools := Binary32.Toolbox_binary32) (scene32 5 2 5)))))
        fzero = false).
Proof.
  split.
  - scene_facts 5 2 5 Hcd Hmn Hmx.
    assert (Hx : Vector3.X (velocityBias
               (this (UpdateJacobiansAndVelocityBias (tools := Toolbox_R) (sceneR 5 2 5)))) = 0).
    { rewrite Update_velocityBias.
      rewrite (@band_CloserToMaximum Toolbox_R (sceneR 5 2 5)).
      - cbn [p_velocityBias Vector3.X]. rewrite Hcd, Hmx. lra.
      - rewrite Hcd. cbn. lra.
      - rewrite Hcd, Hmn, Hmx. lra.
      - rewrite Hcd, Hmn, Hmx. lra. }
    split; [rewrite Hcd; cbn; lra |].
    split; [rewrite Hcd, Hmn, Hmx; lra |].
    split; [exact Hx | rewrite Hx; lra].
  - split; [evaluate |]. split; [evaluate |]. split; [evaluate |].
    split; evaluate.
Qed.

(** C2 (amended): in a non-degenerate recomputation with minimumDistance <=
    currentDistance <= maximumDistance, where currentDistance is the length
    of separation = anchorB - anchorA, error is set to 0 and velocityBias.x
    holds a slack that is not positive (negative when currentDistance lies
    strictly between the bounds).  If currentDistance - minimumDistance >
    0.5 * (maximumDistance - minimumDistance), velocityBias = (currentDistance
    - maximumDistance, 0, 0) and the stored direction is unit(separation), the
    vector (separation.X / currentDistance, separation.Y / currentDistance,
    separation.Z / currentDistance); otherwise velocityBias = (minimumDistance
    - currentDistance, 0, 0) and the stored direction is its negation,
    (-(separation.X / currentDistance), -(separation.Y / currentDistance),
    -(separation.Z / currentDistance)).  In exact arithmetic; and in binary32,
    with the differences, quotients and negations of binary32, where the
    slack of well-formed distances is likewise never greater than 0. *)
Theorem inside_band :
  (forall (T : Toolbox R) (w : World R),
     currentDistance w > Epsilon ->
     minimumDistance (this w) <= currentDistance w <= maximumDistance (this w) ->
     currentDistance w =
       Vector3.Length (Vector3.Subtract (GetAnchorB w) (GetAnchorA w)) /\
     error (this (UpdateJacobiansAndVelocityBias w)) = 0 /\
     Vector3.X (velocityBias (this (UpdateJacobiansAndVelocityBias w))) <= 0 /\
     (minimumDistance (this w) < currentDistance w < maximumDistance (this w) ->
      Vector3.X (velocityBias (this (UpdateJacobiansAndVelocityBias w))) < 0) /\
     (currentDistance w - minimumDistance (this w) >
        1 / 2 * (maximumDistance (this w) - minimumDistance (this w)) ->
      branchTaken w = CloserToMaximum /\
      velocityBias (this (UpdateJacobiansAndVelocityBias w)) =
        Vector3.mk (currentDistance w - maximumDistance (this w)) 0 0 /\
      Matrix3X3.Row1 (linearJacobianA (this (UpdateJacobiansAndVelocityBias w))) =
        Vector3.mk
          (Vector3.X (Vector3.Subtract (GetAnchorB w) (GetAnchorA w)) / currentDistance w)
          (Vector3.Y (Vector3.Subtract (GetAnchorB w) (GetAnchorA w)) / currentDistance w)
          (Vector3.Z (Vector3.Subtract (GetAnchorB w) (GetAnchorA w)) / currentDistance w)) /\
     (~ currentDistance w - minimumDistance (this w) >
          1 / 2 * (maximumDistance (this w) - minimumDistance (this w)) ->
      branchTaken w = CloserToMinimum /\
      velocityBias (this (UpdateJacobiansAndVelocityBias w)) =
        Vector3.mk (minimumDistance (this w) - currentDistance w) 0 0 /\
      Matrix3X3.Row1 (linearJacobianA (this (UpdateJacobiansAndVelocityBias w))) =
        Vector3.mk
          (- (Vector3.X (Vector3.Subtract (GetAnchorB w) (GetAnchorA w)) / currentDistance w))
          (- (Vector3.Y (Vector3.Subtract (GetAnchorB w) (GetAnchorA w)) / currentDistance w))
          (- (Vector3.Z (Vector3.Subtract (GetAnchorB w) (GetAnchorA w)) / currentDistance w)))) /\
  (forall (T : Toolbox Binary32.float) (w : World Binary32.float),
     fgtb (currentDistance w) Epsilon = true ->
     SFleb (minimumDistance (this w)) (currentDistance w) = true ->
     SFleb (currentDistance w) (maximumDistance (this w)) = true ->
     currentDistance w =
       Vector3.Length (Vector3.Subtract (GetAnchorB w) (GetAnchorA w)) /\
     error (this (UpdateJacobiansAndVelocityBias w)) = fzero /\
     (Binary32.well_formed (minimumDistance (this w)) = true ->
      Binary32.well_formed (currentDistance w) = true ->
      Binary32.well_formed (maximumDistance (this w)) = true ->
      SFltb fzero
            (Vector3.X (velocityBias (this (UpdateJacobiansAndVelocityBias w)))) = false) /\
     (fgtb (fsub (currentDistance w) (minimumDistance (this w)))
           (fmul (fsub (maximumDistance (this w)) (minimumDistance (this w))) fhalf) = true ->
      branchTaken w = CloserToMaximum /\
      velocityBias (this (UpdateJacobiansAndVelocityBias w)) =
        Vector3.mk (fsub (currentDistance w) (maximumDistance (this w))) fzero fzero /\
      Matrix3X3.Row1 (linearJacobianA (this (UpdateJacobiansAndVelocityBias w))) =
        Vector3.mk
          (SFdiv Binary32.prec Binary32.emax
             (Vector3.X (Vector3.Subtract (GetAnchorB w) (GetAnchorA w))) (currentDistance w))
          (SFdiv Binary32.prec Binary32.emax
             (Vector3.Y (Vector3.Subtract (GetAnchorB w) (GetAnchorA w))) (currentDistance w))
          (SFdiv Binary32.prec Binary32.emax
             (Vector3.Z (Vector3.Subtract (GetAnchorB w) (GetAnchorA w))) (currentDistance w))) /\
     (fgtb (fsub (currentDistance w) (minimumDistance (this w)))
           (fmul (fsub (maximumDistance (this w)) (minimumDistance (this w))) fhalf) = false ->
      branchTaken w = CloserToMinimum /\
      velocityBias (this (UpdateJacobiansAndVelocityBias w)) =
        Vector3.mk (fsub (minimumDistance (this w)) (currentDistance w)) fzero fzero /\
      Matrix3X3.Row1 (linearJacobianA (this (UpdateJacobiansAndVelocityBias w))) =
        Vector3.mk
          (SFopp (SFdiv Binary32.prec Binary32.emax
                    (Vector3.X (Vector3.Subtract (GetAnchorB w) (GetAnchorA w)))
                    (currentDistance w)))
          (SFopp (SFdiv Binary32.prec Binary32.emax
                    (Vector3.Y (Vector3.Subtract (GetAnchorB w) (GetAnchorA w)))
                    (currentDistance w)))
          (SFopp (SFdiv Binary32.prec Binary32.emax
                    (Vector3.Z (Vector3.Subtract (GetAnchorB w) (GetAnchorA w)))
                    (currentDistance w))))).
Proof.
  split.
  - intros T w He Hband. split; [reflexivity |]. unfold branchTaken.
    rewrite Update_trace, Update_error, Update_velocityBias, Update_linearA.
    destruct (Rlt_dec (1 / 2 * (maximumDistance (this w) - minimumDistance (this w)))
                      (currentDistance w - minimumDistance (this w))) as [Hmid | Hmid].
    + rewrite (@band_CloserToMaximum T w He Hband) by lra.
      cbn [p_error p_velocityBias p_linearA p_trace taken Vector3.X].
      split; [reflexivity |]. split; [lra |]. split; [intros; lra |].
      split; [intros _; split; [reflexivity | split; reflexivity] | intros; lra].
    + rewrite (@band_CloserToMinimum T w He Hband) by lra.
      cbn [p_error p_velocityBias p_linearA p_trace taken Vector3.X].
      split; [reflexivity |]. split; [lra |]. split; [intros; lra |].
      split; [intros; lra | intros _; split; [reflexivity | split; reflexivity]].
  - intros T w He Hlo Hhi. split; [reflexivity |].
    destruct (@inside_band_generic _ _ T w He (SFleb_not_gt _ _ Hhi) (SFleb_not_gt _ _ Hlo))
      as (Herr & Hup & Hdown).
    split; [exact Herr |]. split; [| split].
    + intros Vmn Vcd Vmx.
      destruct (fgtb (fsub (currentDistance w) (minimumDistance (this w)))
                     (fmul (fsub (maximumDistance (this w)) (minimumDistance (this w)))
                           fhalf)) eqn:Hmid.
      * destruct (Hup eq_refl) as (_ & Hvb & _). rewrite Hvb. cbn [Vector3.X].
        exact (SFsub_not_positive _ _ Vcd Vmx Hhi).
      * destruct (Hdown eq_refl) as (_ & Hvb & _). rewrite Hvb. cbn [Vector3.X].
        exact (SFsub_not_positive _ _ Vmn Vcd Hlo).
    + intros Hmid. destruct (Hup Hmid) as (Hb & Hvb & Hrow).
      split; [exact Hb |]. split; [exact Hvb |]. rewrite Hrow. reflexivity.
    + intros Hmid. destruct (Hdown Hmid) as (Hb & Hvb & Hrow).
      split; [exact Hb |]. split; [exact Hvb |]. rewrite Hrow. reflexivity.
Qed.

(** C3: in a recomputation whose currentDistance is at or below Epsilon, no
    division is executed (so none by zero), error is set to 0, velocityBias to
    the zero vector, and the populated rows of linearJacobianA and
    linearJacobianB to zero.  In exact arithmetic; and in binary32, whenever
    currentDistance > Epsilon is false, where the row of bone B holds the
    negated zeros (-0, -0, -0), which compare equal to 0.  Moreover, for an
    Epsilon that is not negative, whatever division a recomputation does
    execute has a divisor other than zero. *)
Theorem degenerate_anchors :
  (forall (T : Toolbox R) (w : World R),
     currentDistance w <= Epsilon ->
     currentDistance w =
       Vector3.Length (Vector3.Subtract (GetAnchorB w) (GetAnchorA w)) /\
     divisionsExecuted w = [] /\
     branchTaken w = Degenerate /\
     error (this (UpdateJacobiansAndVelocityBias w)) = 0 /\
     velocityBias (this (UpdateJacobiansAndVelocityBias w)) = Vector3.zero /\
     Matrix3X3.Row1 (linearJacobianA (this (UpdateJacobiansAndVelocityBias w))) =
       Vector3.zero /\
     Matrix3X3.Row1 (linearJacobianB (this (UpdateJacobiansAndVelocityBias w))) =
       Vector3.zero) /\
  (forall (T : Toolbox Binary32.float) (w : World Binary32.float),
     fgtb (currentDistance w) Epsilon = false ->
     divisionsExecuted w = [] /\
     branchTaken w = Degenerate /\
     error (this (UpdateJacobiansAndVelocityBias w)) = fzero /\
     velocityBias (this (UpdateJacobiansAndVelocityBias w)) = Vector3.zero /\
     Matrix3X3.Row1 (linearJacobianA (this (UpdateJacobiansAndVelocityBias w))) =
       Vector3.zero /\
     Matrix3X3.Row1 (linearJacobianB (this (UpdateJacobiansAndVelocityBias w))) =
       Vector3.mk (S754_zero true) (S754_zero true) (S754_zero true) /\
     SFeqb (S754_zero true) fzero = true) /\
  (forall (T : Toolbox R) (w : World R) (a d : R),
     0 <= Epsilon -> In (a, d) (divisionsExecuted w) -> d <> 0) /\
  (forall (T : Toolbox Binary32.float) (w : World Binary32.float) (a d : Binary32.float),
     SFleb fzero Epsilon = true -> In (a, d) (divisionsExecuted w) ->
     SFeqb d fzero = false).
Proof.
  split; [| split; [| split]].
  - intros T w He. split; [reflexivity |].
    apply fgtb_R_false in He.
    destruct (degenerate_generic w He) as (Hd & Hb & Herr & Hvb & HA & HB).
    rewrite HB, Negate_zero.
    split; [exact Hd |]. split; [exact Hb |]. split; [exact Herr |].
    split; [exact Hvb |]. split; [exact HA | reflexivity].
  - intros T w He.
    destruct (degenerate_generic w He) as (Hd & Hb & Herr & Hvb & HA & HB).
    rewrite HB.
    split; [exact Hd |]. split; [exact Hb |]. split; [exact Herr |].
    split; [exact Hvb |]. split; [exact HA |]. split; reflexivity.
  - intros T w a d. apply divisors_nonzero.
  - intros T w a d. apply divisors_nonzero_binary32.
Qed.

(** C5: after every recomputation, with linearA the stored populated row of
    linearJacobianA (after any negation), the populated row of
    angularJacobianA is cross(offsetA, linearA) and that of angularJacobianB
    is cross(linearA, offsetB), the offsets being the bone orientations
    applied to the local anchors (for every reading of float); and, in exact
    arithmetic and in binary32 alike, cross(linearA, offsetB) is
    cross(offsetB, -linearA), the cross product with the direction stored for
    bone B. *)
Theorem angular_rows :
  (forall (F : Type) (ops : Scalar F) (T : Toolbox F) (w : World F),
     Matrix3X3.Row1 (angularJacobianA (this (UpdateJacobiansAndVelocityBias w))) =
       Vector3.Cross
         (Quaternion.Transform (LocalAnchorA (this w)) (Orientation (boneA w)))
         (Matrix3X3.Row1 (linearJacobianA (this (UpdateJacobiansAndVelocityBias w)))) /\
     Matrix3X3.Row1 (angularJacobianB (this (UpdateJacobiansAndVelocityBias w))) =
       Vector3.Cross
         (Matrix3X3.Row1 (linearJacobianA (this (UpdateJacobiansAndVelocityBias w))))
         (Quaternion.Transform (LocalAnchorB (this w)) (Orientation (boneB w))) /\
     Vector3.Negate
       (Matrix3X3.Row1 (linearJacobianA (this (UpdateJacobiansAndVelocityBias w)))) =
     Matrix3X3.Row1 (linearJacobianB (this (UpdateJacobiansAndVelocityBias w)))) /\
  (forall (T : Toolbox R) (w : World R),
     Matrix3X3.Row1 (angularJacobianB (this (UpdateJacobiansAndVelocityBias w))) =
       Vector3.Cross
         (Quaternion.Transform (LocalAnchorB (this w)) (Orientation (boneB w)))
         (Vector3.Negate
            (Matrix3X3.Row1 (linearJacobianA (this (UpdateJacobiansAndVelocityBias w)))))) /\
  (forall (T : Toolbox Binary32.float) (w : World Binary32.float),
     Matrix3X3.Row1 (angularJacobianB (this (UpdateJacobiansAndVelocityBias w))) =
       Vector3.Cross
         (Quaternion.Transform (LocalAnchorB (this w)) (Orientation (boneB w)))
         (Vector3.Negate
            (Matrix3X3.Row1 (linearJacobianA (this (UpdateJacobiansAndVelocityBias w)))))).
Proof.
  split; [| split].
  - intros F ops T w.
    destruct (cross_products_stored w) as [HA HB].
    split; [exact HA |]. split; [exact HB |].
    rewrite Update_linearB, Update_linearA. reflexivity.
  - intros T w. rewrite (proj2 (cross_products_stored w)). apply Cross_swap.
  - intros T w. rewrite (proj2 (cross_products_stored w)). apply Cross_swap_binary32.
Qed.

(** The algebra of the anchor accessors, in exact arithmetic only: for a bone
    whose orientation is a unit quaternion and any world point P,
    SetAnchorA(P) followed by GetAnchorA() returns P, and likewise for the B
    anchor.  The float program rounds at every step and does not satisfy this
    equation: see anchor_round_trip_binary32_rounds and
    anchor_round_trip_binary32_absorbs. *)
Lemma anchor_round_trip (w : World R) (P : Vector3.t R) :
  (Quaternion.LengthSquared (Orientation (boneA w)) = 1 ->
   GetAnchorA (SetAnchorA P w) = P) /\
  (Quaternion.LengthSquared (Orientation (boneB w)) = 1 ->
   GetAnchorB (SetAnchorB P w) = P).
Proof.
  split; intros Hq.
  - unfold GetAnchorA, SetAnchorA.
    change (boneA (with_this w _)) with (boneA w). cbn [this with_this LocalAnchorA].
    rewrite (Transform_Conjugate_Transform _ Hq). apply Add_Subtract_cancel.
  - unfold GetAnchorB, SetAnchorB.
    change (boneB (with_this w _)) with (boneB w). cbn [this with_this LocalAnchorB].
    rewrite (Transform_Conjugate_Transform _ Hq). apply Add_Subtract_cancel.
Qed.

(** C7: for every value v, negative or not, SetMinimumDistance(v) followed by
    GetMinimumDistance() returns max(0, v), and likewise for the maximum (the
    clamp helper's result for every reading of float, the maximum of the
    reals in exact arithmetic);
    from the constructor on, through any calls, both stored bounds are >= 0;
    and neither setter looks at the other bound, so that a minimum above the
    maximum is stored as given. *)
Theorem distance_clamp :
  (forall (F : Type) (ops : Scalar F) (w : World F) (v : F),
     GetMinimumDistance (SetMinimumDistance v w) = MathHelper.Max fzero v /\
     GetMaximumDistance (SetMaximumDistance v w) = MathHelper.Max fzero v) /\
  (forall (w : World R) (v : R),
     GetMinimumDistance (SetMinimumDistance v w) = Rmax 0 v /\
     GetMaximumDistance (SetMaximumDistance v w) = Rmax 0 v) /\
  (forall (w : World R) (v : R),
     0 <= GetMinimumDistance (SetMinimumDistance v w) /\
     0 <= GetMaximumDistance (SetMaximumDistance v w)) /\
  (forall (T : Toolbox R) (skeleton : BoneRef -> IKBone R) (fresh : t R)
          (cA cB : BoneRef) (aA aB : Vector3.t R) (mn mx : R) (cs : list (Call R)),
     0 <= GetMinimumDistance
            (calls cs (IKDistanceLimit skeleton fresh cA cB aA aB mn mx)) /\
     0 <= GetMaximumDistance
            (calls cs (IKDistanceLimit skeleton fresh cA cB aA aB mn mx))) /\
  (forall (w : World R) (v : R),
     GetMaximumDistance (SetMinimumDistance v w) = GetMaximumDistance w /\
     GetMinimumDistance (SetMaximumDistance v w) = GetMinimumDistance w) /\
  (GetMinimumDistance (sceneR 0 5 2) = 5 /\ GetMaximumDistance (sceneR 0 5 2) = 2).
Proof.
  split; [| split; [| split; [| split; [| split]]]].
  - intros F ops w v. split; reflexivity.
  - intros w v. unfold GetMinimumDistance, GetMaximumDistance. cbn.
    rewrite Max_Rmax. split; reflexivity.
  - intros w v. unfold GetMinimumDistance, GetMaximumDistance. cbn.
    rewrite Max_Rmax. split; apply Rmax_l.
  - intros T skeleton fresh cA cB aA aB mn mx cs.
    unfold GetMinimumDistance, GetMaximumDistance. apply calls_bounds.
    destruct (constructor_bounds skeleton fresh cA cB aA aB mn mx) as [-> ->].
    split; apply Rmax_l.
  - intros w v. split; reflexivity.
  - scene_facts 0 5 2 Hcd Hmn Hmx. split; assumption.
Qed.

(** C8: HasError() returns true exactly when |error| < 0.0001 is false (for
    every reading of float, and in exact arithmetic with the order of the
    reals); with error = 0.00005 it returns false and with error = 0.0002 it
    returns true, in exact arithmetic and in binary32. *)
Theorem HasError_threshold :
  (forall (F : Type) (ops : Scalar F) (w : World F),
     HasError w = true <-> fltb (fabs (error (this w))) ftolerance = false) /\
  (forall (w : World R),
     HasError w = true <-> ~ Rabs (error (this w)) < 1 / 10000) /\
  (forall (w : World R),
     HasError (havingError (5 / 100000) w) = false /\
     HasError (havingError (2 / 10000) w) = true) /\
  (forall (w : World Binary32.float),
     HasError (havingError (Binary32.of_ratio 5 100000) w) = false /\
     HasError (havingError (Binary32.of_ratio 2 10000) w) = true) /\
  ftolerance = Binary32.of_ratio 1 10000.
Proof.
  split; [| split; [| split; [| split]]].
  - intros F ops w. unfold HasError. destruct (fltb _ _); cbn; split; congruence.
  - intros w. unfold HasError. cbn.
    destruct (Rltb (Rabs (error (this w))) (1 / 10000)) eqn:E; cbn.
    + apply Rltb_true in E. split; [discriminate | intros Hn; contradiction].
    + apply Rltb_false in E. split; [intros _; lra | reflexivity].
  - intros w. unfold HasError. cbn. split.
    + rewrite Rabs_right by lra.
      rewrite (proj2 (Rltb_true _ _)); [reflexivity | lra].
    + rewrite Rabs_right by lra.
      rewrite (proj2 (Rltb_false _ _)); [reflexivity | lra].
  - intros w. split; evaluate.
  - evaluate.
Qed.

(** C10, as stated, fails when the boundary distance is within Epsilon: in
    the scene with coincident anchors, minimumDistance 0 and maximumDistance
    5, the bounds are ordered and currentDistance equals minimumDistance, but
    the recomputation takes the degenerate branch and neither of the two
    inside-band branches.  In exact arithmetic and in binary32 alike. *)
Lemma boundary_within_epsilon_is_degenerate :
  (minimumDistance (this (sceneR 0 0 5)) < maximumDistance (this (sceneR 0 0 5)) /\
   currentDistance (sceneR 0 0 5) = minimumDistance (this (sceneR 0 0 5)) /\
   branchTaken (tools := Toolbox_R) (sceneR 0 0 5) = Degenerate /\
   ~ (branchTaken (tools := Toolbox_R) (sceneR 0 0 5) = CloserToMaximum \/
      branchTaken (tools := Toolbox_R) (sceneR 0 0 5) = CloserToMinimum)) /\
  (fltb (minimumDistance (this (scene32 0 0 5))) (maximumDistance (this (scene32 0 0 5))) = true /\
   currentDistance (scene32 0 0 5) = minimumDistance (this (scene32 0 0 5)) /\
   branchTaken (tools := Binary32.Toolbox_binary32) (scene32 0 0 5) = Degenerate /\
   ~ (branchTaken (tools := Binary32.Toolbox_binary32) (scene32 0 0 5) = CloserToMaximum \/
      branchTaken (tools := Binary32.Toolbox_binary32) (scene32 0 0 5) = CloserToMinimum)).
Proof.
  split.
  - scene_facts 0 0 5 Hcd Hmn Hmx.
    assert (Hb : branchTaken (tools := Toolbox_R) (sceneR 0 0 5) = Degenerate).
    { unfold branchTaken. rewrite Update_trace.
      rewrite (@band_Degenerate Toolbox_R (sceneR 0 0 5)); [reflexivity |].
      rewrite Hcd. cbn. lra. }
    split; [rewrite Hmn, Hmx; lra |].
    split; [rewrite Hcd, Hmn; reflexivity |].
    split; [exact Hb |].
    rewrite Hb. intros [E | E]; discriminate E.
  - assert (Hb : branchTaken (tools := Binary32.Toolbox_binary32) (scene32 0 0 5) = Degenerate)
      by evaluate.
    split; [evaluate |]. split; [evaluate |]. split; [exact Hb |].
    rewrite Hb. intros [E | E]; discriminate E.
Qed.

(** C10 (amended): when minimumDistance < maximumDistance and currentDistance
    equals maximumDistance or minimumDistance, neither violation test
    succeeds and neither violation branch is taken, error is set to 0 and a
    subsequent HasError() returns false; when moreover currentDistance
    exceeds Epsilon, the recomputation takes an inside-band branch (in exact
    arithmetic: the one closer to the maximum at maximumDistance and the one
    closer to the minimum at minimumDistance).  In exact arithmetic and in
    binary32 alike. *)
Theorem boundary_distances :
  (forall (T : Toolbox R) (w : World R),
     minimumDistance (this w) < maximumDistance (this w) ->
     currentDistance w = maximumDistance (this w) \/
     currentDistance w = minimumDistance (this w) ->
     ~ currentDistance w > maximumDistance (this w) /\
     ~ currentDistance w < minimumDistance (this w) /\
     branchTaken w <> ExceedsMaximum /\
     branchTaken w <> ExceedsMinimum /\
     error (this (UpdateJacobiansAndVelocityBias w)) = 0 /\
     HasError (UpdateJacobiansAndVelocityBias w) = false /\
     (currentDistance w > Epsilon ->
      (currentDistance w = maximumDistance (this w) -> branchTaken w = CloserToMaximum) /\
      (currentDistance w = minimumDistance (this w) -> branchTaken w = CloserToMinimum))) /\
  (forall (T : Toolbox Binary32.float) (w : World Binary32.float),
     fltb (minimumDistance (this w)) (maximumDistance (this w)) = true ->
     currentDistance w = maximumDistance (this w) \/
     currentDistance w = minimumDistance (this w) ->
     fgtb (currentDistance w) (maximumDistance (this w)) = false /\
     fltb (currentDistance w) (minimumDistance (this w)) = false /\
     branchTaken w <> ExceedsMaximum /\
     branchTaken w <> ExceedsMinimum /\
     error (this (UpdateJacobiansAndVelocityBias w)) = fzero /\
     HasError (UpdateJacobiansAndVelocityBias w) = false /\
     (fgtb (currentDistance w) Epsilon = true ->
      branchTaken w = CloserToMaximum \/ branchTaken w = CloserToMinimum)).
Proof.
  split.
  - intros T w Hord Hcd.
    assert (Hord' : fltb (minimumDistance (this w)) (maximumDistance (this w)) = true)
      by (apply fltb_R_true; exact Hord).
    destruct (@boundary_generic R _ T OrderedScalar_R w Hord' Hcd)
      as (Hmax & Hmin & Hb1 & Hb2 & Hin & Herr & Hhas).
    apply fgtb_R_false in Hmax. apply fltb_R_false in Hmin.
    split; [lra |]. split; [lra |]. split; [exact Hb1 |]. split; [exact Hb2 |].
    split; [exact Herr |]. split; [exact Hhas |].
    intros He.
    assert (Hband : minimumDistance (this w) <= currentDistance w
                      <= maximumDistance (this w)) by lra.
    unfold branchTaken. rewrite Update_trace.
    destruct (Rlt_dec ((maximumDistance (this w) - minimumDistance (this w)) * (1 / 2))
                      (currentDistance w - minimumDistance (this w))) as [Hmid | Hmid].
    + rewrite (@band_CloserToMaximum T w) by lra. cbn [p_trace taken].
      split; [reflexivity | intros E; rewrite E in Hmid; lra].
    + rewrite (@band_CloserToMinimum T w) by lra. cbn [p_trace taken].
      split; [intros E; rewrite E in Hmid; lra | reflexivity].
  - intros T w Hord Hcd.
    destruct (@boundary_generic _ _ T OrderedScalar_binary32 w Hord Hcd)
      as (Hmax & Hmin & Hb1 & Hb2 & Hin & Herr & Hhas).
    split; [exact Hmax |]. split; [exact Hmin |]. split; [exact Hb1 |].
    split; [exact Hb2 |]. split; [exact Herr |]. split; [exact Hhas | exact Hin].
Qed.

End ExactClaims.

(** ** The claims at concrete scenes *)

Section Witnesses.
Import Exact.
Local Open Scope R_scope.

(** The band [2, 5] with anchors 6 apart and 1 apart along the first axis, in
    binary32: the upper violation, with error 1 and direction (1, 0, 0), and
    the lower violation, with error 1 and direction (-1, -0, -0). *)
Lemma violation_branches_witness :
  (fgtb (currentDistance (scene32 6 2 5)) (Epsilon (Toolbox := Binary32.Toolbox_binary32)) = true /\
   fgtb (currentDistance (scene32 6 2 5)) (maximumDistance (this (scene32 6 2 5))) = true /\
   branchTaken (tools := Binary32.Toolbox_binary32) (scene32 6 2 5) = ExceedsMaximum /\
   error (this (UpdateJacobiansAndVelocityBias (tools := Binary32.Toolbox_binary32)
                  (scene32 6 2 5))) = Binary32.of_Z 1 /\
   Matrix3X3.Row1
     (linearJacobianA (this (UpdateJacobiansAndVelocityBias
                               (tools := Binary32.Toolbox_binary32) (scene32 6 2 5)))) =
     Vector3.mk (Binary32.of_Z 1) (S754_zero false) (S754_zero false)) /\
  (fgtb (currentDistance (scene32 1 2 5)) (Epsilon (Toolbox := Binary32.Toolbox_binary32)) = true /\
   fgtb (currentDistance (scene32 1 2 5)) (maximumDistance (this (scene32 1 2 5))) = false /\
   fltb (currentDistance (scene32 1 2 5)) (minimumDistance (this (scene32 1 2 5))) = true /\
   branchTaken (tools := Binary32.Toolbox_binary32) (scene32 1 2 5) = ExceedsMinimum /\
   error (this (UpdateJacobiansAndVelocityBias (tools := Binary32.Toolbox_binary32)
                  (scene32 1 2 5))) = Binary32.of_Z 1 /\
   Matrix3X3.Row1
     (linearJacobianA (this (UpdateJacobiansAndVelocityBias
                               (tools := Binary32.Toolbox_binary32) (scene32 1 2 5)))) =
     Vector3.mk (Binary32.of_Z (-1)) (S754_zero true) (S754_zero true)).
Proof.
  assert (He6 : fgtb (currentDistance (scene32 6 2 5))
                     (Epsilon (Toolbox := Binary32.Toolbox_binary32)) = true)
    by evaluate.
  assert (Hmax6 : fgtb (currentDistance (scene32 6 2 5))
                       (maximumDistance (this (scene32 6 2 5))) = true)
    by evaluate.
  assert (He1 : fgtb (currentDistance (scene32 1 2 5))
                     (Epsilon (Toolbox := Binary32.Toolbox_binary32)) = true)
    by evaluate.
  assert (Hmax1 : fgtb (currentDistance (scene32 1 2 5))
                       (maximumDistance (this (scene32 1 2 5))) = false)
    by evaluate.
  assert (Hmin1 : fltb (currentDistance (scene32 1 2 5))
                       (minimumDistance (this (scene32 1 2 5))) = true)
    by evaluate.
  destruct (@violation_branches _ _ Binary32.Toolbox_binary32 (scene32 6 2 5) He6)
    as (_ & _ & Hupper & _).
  destruct (@violation_branches _ _ Binary32.Toolbox_binary32 (scene32 1 2 5) He1)
    as (_ & _ & _ & Hlower).
  destruct (Hupper Hmax6) as (Hb6 & Herr6 & _ & Hrow6).
  destruct (Hlower Hmax1 Hmin1) as (Hb1 & Herr1 & _ & Hrow1).
  split.
  - split; [exact He6 |]. split; [exact Hmax6 |]. split; [exact Hb6 |].
    split; [rewrite Herr6; evaluate | rewrite Hrow6; evaluate].
  - split; [exact He1 |]. split; [exact Hmax1 |]. split; [exact Hmin1 |].
    split; [exact Hb1 |].
    split; [rewrite Herr1; evaluate | rewrite Hrow1; evaluate].
Defined.

(** The band [2, 5] with anchors 4 apart (closer to the maximum, slack -1,
    direction (4/4, 0/4, 0/4)) and 5/2 apart (closer to the minimum, slack
    -1/2, direction negated) in exact arithmetic, and 4 apart in binary32
    (slack -1, not above 0, direction (1, 0, 0)). *)
Lemma inside_band_witness :
  (currentDistance (sceneR 4 2 5) > Epsilon (Toolbox := Toolbox_R) /\
   minimumDistance (this (sceneR 4 2 5)) <= currentDistance (sceneR 4 2 5)
     <= maximumDistance (this (sceneR 4 2 5)) /\
   error (this (UpdateJacobiansAndVelocityBias (tools := Toolbox_R) (sceneR 4 2 5))) = 0 /\
   velocityBias (this (UpdateJacobiansAndVelocityBias (tools := Toolbox_R) (sceneR 4 2 5))) =
     Vector3.mk (4 - 5) 0 0 /\
   Matrix3X3.Row1
     (linearJacobianA (this (UpdateJacobiansAndVelocityBias (tools := Toolbox_R)
                               (sceneR 4 2 5)))) =
     Vector3.mk (4 / 4) (0 / 4) (0 / 4)) /\
  (currentDistance (sceneR (5 / 2) 2 5) > Epsilon (Toolbox := Toolbox_R) /\
   minimumDistance (this (sceneR (5 / 2) 2 5)) <= currentDistance (sceneR (5 / 2) 2 5)
     <= maximumDistance (this (sceneR (5 / 2) 2 5)) /\
   error (this (UpdateJacobiansAndVelocityBias (tools := Toolbox_R) (sceneR (5 / 2) 2 5))) = 0 /\
   velocityBias (this (UpdateJacobiansAndVelocityBias (tools := Toolbox_R) (sceneR (5 / 2) 2 5))) =
     Vector3.mk (2 - 5 / 2) 0 0 /\
   Matrix3X3.Row1
     (linearJacobianA (this (UpdateJacobiansAndVelocityBias (tools := Toolbox_R)
                               (sceneR (5 / 2) 2 5)))) =
     Vector3.mk (- (5 / 2 / (5 / 2))) (- (0 / (5 / 2))) (- (0 / (5 / 2)))) /\
  (fgtb (currentDistance (scene32 4 2 5))
        (Epsilon (Toolbox := Binary32.Toolbox_binary32)) = true /\
   SFleb (minimumDistance (this (scene32 4 2 5))) (currentDistance (scene32 4 2 5)) = true /\
   SFleb (currentDistance (scene32 4 2 5)) (maximumDistance (this (scene32 4 2 5))) = true /\
   branchTaken (tools := Binary32.Toolbox_binary32) (scene32 4 2 5) = CloserToMaximum /\
   error (this (UpdateJacobiansAndVelocityBias (tools := Binary32.Toolbox_binary32)
                  (scene32 4 2 5))) = fzero /\
   velocityBias (this (UpdateJacobiansAndVelocityBias (tools := Binary32.Toolbox_binary32)
                         (scene32 4 2 5))) =
     Vector3.mk (Binary32.of_Z (-1)) (S754_zero false) (S754_zero false) /\
   SFltb fzero
         (Vector3.X (velocityBias (this (UpdateJacobiansAndVelocityBias
                                           (tools := Binary32.Toolbox_binary32)
                                           (scene32 4 2 5))))) = false /\
   Matrix3X3.Row1
     (linearJacobianA (this (UpdateJacobiansAndVelocityBias
                               (tools := Binary32.Toolbox_binary32) (scene32 4 2 5)))) =
     Vector3.mk (Binary32.of_Z 1) (S754_zero false) (S754_zero false)).
Proof.
  scene_facts 4 2 5 Hcd4 Hmn4 Hmx4.
  scene_facts (5 / 2) 2 5 Hcd2 Hmn2 Hmx2.
  assert (He4 : currentDistance (sceneR 4 2 5) > Epsilon (Toolbox := Toolbox_R))
    by (rewrite Hcd4; cbn; lra).
  assert (Hb4 : minimumDistance (this (sceneR 4 2 5)) <= currentDistance (sceneR 4 2 5)
                  <= maximumDistance (this (sceneR 4 2 5)))
    by (rewrite Hcd4, Hmn4, Hmx4; lra).
  assert (He2 : currentDistance (sceneR (5 / 2) 2 5) > Epsilon (Toolbox := Toolbox_R))
    by (rewrite Hcd2; cbn; lra).
  assert (Hb2 : minimumDistance (this (sceneR (5 / 2) 2 5))
                  <= currentDistance (sceneR (5 / 2) 2 5)
                  <= maximumDistance (this (sceneR (5 / 2) 2 5)))
    by (rewrite Hcd2, Hmn2, Hmx2; lra).
  assert (He32 : fgtb (currentDistance (scene32 4 2 5))
                      (Epsilon (Toolbox := Binary32.Toolbox_binary32)) = true)
    by evaluate.
  assert (Hlo32 : SFleb (minimumDistance (this (scene32 4 2 5)))
                        (currentDistance (scene32 4 2 5)) = true)
    by evaluate.
  assert (Hhi32 : SFleb (currentDistance (scene32 4 2 5))
                        (maximumDistance (this (scene32 4 2 5))) = true)
    by evaluate.
  destruct inside_band as [HR H32].
  destruct (HR Toolbox_R (sceneR 4 2 5) He4 Hb4) as (_ & Herr4 & _ & _ & Hupper & _).
  destruct (HR Toolbox_R (sceneR (5 / 2) 2 5) He2 Hb2) as (_ & Herr2 & _ & _ & _ & Hlower).
  destruct (H32 Binary32.Toolbox_binary32 (scene32 4 2 5) He32 Hlo32 Hhi32)
    as (_ & Herr32 & Hsign32 & Hupper32 & _).
  split; [| split].
  - split; [exact He4 |]. split; [exact Hb4 |]. split; [exact Herr4 |].
    destruct Hupper as (_ & Hvb & Hrow); [rewrite Hcd4, Hmn4, Hmx4; lra |].
    split.
    + rewrite Hvb, Hcd4, Hmx4. reflexivity.
    + rewrite Hrow.
      change (Vector3.Subtract (GetAnchorB (sceneR 4 2 5)) (GetAnchorA (sceneR 4 2 5)))
        with (separation (sceneR 4 2 5)).
      rewrite sceneR_separation, Hcd4. reflexivity.
  - split; [exact He2 |]. split; [exact Hb2 |]. split; [exact Herr2 |].
    destruct Hlower as (_ & Hvb & Hrow); [rewrite Hcd2, Hmn2, Hmx2; lra |].
    split.
    + rewrite Hvb, Hcd2, Hmn2. reflexivity.
    + rewrite Hrow.
      change (Vector3.Subtract (GetAnchorB (sceneR (5 / 2) 2 5))
                               (GetAnchorA (sceneR (5 / 2) 2 5)))
        with (separation (sceneR (5 / 2) 2 5)).
      rewrite sceneR_separation, Hcd2. reflexivity.
  - split; [exact He32 |]. split; [exact Hlo32 |]. split; [exact Hhi32 |].
    destruct Hupper32 as (Hb & Hvb & Hrow); [evaluate |].
    split; [exact Hb |]. split; [exact Herr32 |].
    split; [rewrite Hvb; evaluate |].
    split; [apply Hsign32; evaluate | rewrite Hrow; evaluate].
Defined.

(** Coincident anchors, in exact arithmetic and in binary32: nothing is
    divided and the derived state is zero.  Anchors 6 apart: the divisions
    executed divide by 6. *)
Lemma degenerate_anchors_witness :
  (currentDistance (sceneR 0 2 5) <= Epsilon (Toolbox := Toolbox_R) /\
   divisionsExecuted (tools := Toolbox_R) (sceneR 0 2 5) = [] /\
   error (this (UpdateJacobiansAndVelocityBias (tools := Toolbox_R) (sceneR 0 2 5))) = 0 /\
   velocityBias (this (UpdateJacobiansAndVelocityBias (tools := Toolbox_R) (sceneR 0 2 5))) =
     Vector3.zero /\
   Matrix3X3.Row1
     (linearJacobianB (this (UpdateJacobiansAndVelocityBias (tools := Toolbox_R)
                               (sceneR 0 2 5)))) = Vector3.zero) /\
  (fgtb (currentDistance (scene32 0 2 5))
        (Epsilon (Toolbox := Binary32.Toolbox_binary32)) = false /\
   divisionsExecuted (tools := Binary32.Toolbox_binary32) (scene32 0 2 5) = [] /\
   error (this (UpdateJacobiansAndVelocityBias (tools := Binary32.Toolbox_binary32)
                  (scene32 0 2 5))) = fzero) /\
  (0 <= Epsilon (Toolbox := Toolbox_R) /\
   In (6, 6) (divisionsExecuted (tools := Toolbox_R) (sceneR 6 2 5)) /\ 6 <> 0) /\
  (SFleb fzero (Epsilon (Toolbox := Binary32.Toolbox_binary32)) = true /\
   In (Binary32.of_Z 6, Binary32.of_Z 6)
      (divisionsExecuted (tools := Binary32.Toolbox_binary32) (scene32 6 2 5)) /\
   SFeqb (Binary32.of_Z 6) fzero = false).
Proof.
  assert (He : currentDistance (sceneR 0 2 5) <= Epsilon (Toolbox := Toolbox_R)).
  { rewrite sceneR_currentDistance by lra. cbn. lra. }
  assert (He32 : fgtb (currentDistance (scene32 0 2 5))
                      (Epsilon (Toolbox := Binary32.Toolbox_binary32)) = false)
    by evaluate.
  assert (Heps : 0 <= Epsilon (Toolbox := Toolbox_R)) by (cbn; lra).
  assert (Hin : In (6, 6) (divisionsExecuted (tools := Toolbox_R) (sceneR 6 2 5))).
  { scene_facts 6 2 5 Hcd Hmn Hmx.
    unfold divisionsExecuted. rewrite Update_trace.
    rewrite (@policy_ExceedsMaximum R _ Toolbox_R (sceneR 6 2 5)).
    - cbn [p_trace divisions]. unfold unitSeparation_divisions.
      rewrite sceneR_separation, Hcd. left. reflexivity.
    - apply fgtb_R_true. rewrite Hcd. cbn. lra.
    - apply fgtb_R_true. rewrite Hcd, Hmx. lra. }
  assert (Heps32 : SFleb fzero (Epsilon (Toolbox := Binary32.Toolbox_binary32)) = true)
    by evaluate.
  assert (Hin32 : In (Binary32.of_Z 6, Binary32.of_Z 6)
                     (divisionsExecuted (tools := Binary32.Toolbox_binary32) (scene32 6 2 5)))
    by (vm_compute; left; reflexivity).
  destruct degenerate_anchors as (HR & H32 & HdivR & Hdiv32).
  destruct (HR Toolbox_R (sceneR 0 2 5) He) as (_ & Hd & _ & Herr & Hvb & _ & HB).
  destruct (H32 Binary32.Toolbox_binary32 (scene32 0 2 5) He32) as (Hd32 & _ & Herr32 & _).
  split; [| split; [| split]].
  - split; [exact He |]. split; [exact Hd |]. split; [exact Herr |].
    split; [exact Hvb | exact HB].
  - split; [exact He32 |]. split; [exact Hd32 | exact Herr32].
  - split; [exact Heps |]. split; [exact Hin |].
    exact (HdivR Toolbox_R (sceneR 6 2 5) 6 6 Heps Hin).
  - split; [exact Heps32 |]. split; [exact Hin32 |].
    exact (Hdiv32 Binary32.Toolbox_binary32 (scene32 6 2 5) _ _ Heps32 Hin32).
Defined.

(** A bone turned by (3/5, 0, 0, 4/5): setting then getting the anchor
    (1, 2, 3) returns it, on either side. *)
Lemma anchor_round_trip_witness :
  Quaternion.LengthSquared (Orientation (boneA turnedWorld)) = 1 /\
  Quaternion.LengthSquared (Orientation (boneB turnedWorld)) = 1 /\
  GetAnchorA (SetAnchorA (Vector3.mk 1 2 3) turnedWorld) = Vector3.mk 1 2 3 /\
  GetAnchorB (SetAnchorB (Vector3.mk 1 2 3) turnedWorld) = Vector3.mk 1 2 3.
Proof.
  assert (Hq : Quaternion.LengthSquared (Orientation turnedBone) = 1).
  { unfold turnedBone, Quaternion.LengthSquared. cbn. lra. }
  destruct (@anchor_round_trip turnedWorld (Vector3.mk 1 2 3)) as [HA HB].
  split; [exact Hq |]. split; [exact Hq |]. split; [exact (HA Hq) | exact (HB Hq)].
Defined.

(** The band [2, 5] with anchors exactly 5 apart and exactly 2 apart, in exact
    arithmetic and in binary32. *)
Lemma boundary_distances_witness :
  (minimumDistance (this (sceneR 5 2 5)) < maximumDistance (this (sceneR 5 2 5)) /\
   currentDistance (sceneR 5 2 5) = maximumDistance (this (sceneR 5 2 5)) /\
   branchTaken (tools := Toolbox_R) (sceneR 5 2 5) = CloserToMaximum /\
   HasError (UpdateJacobiansAndVelocityBias (tools := Toolbox_R) (sceneR 5 2 5)) = false) /\
  (minimumDistance (this (sceneR 2 2 5)) < maximumDistance (this (sceneR 2 2 5)) /\
   currentDistance (sceneR 2 2 5) = minimumDistance (this (sceneR 2 2 5)) /\
   branchTaken (tools := Toolbox_R) (sceneR 2 2 5) = CloserToMinimum /\
   HasError (UpdateJacobiansAndVelocityBias (tools := Toolbox_R) (sceneR 2 2 5)) = false) /\
  (fltb (minimumDistance (this (scene32 5 2 5))) (maximumDistance (this (scene32 5 2 5))) = true /\
   currentDistance (scene32 5 2 5) = maximumDistance (this (scene32 5 2 5)) /\
   fgtb (currentDistance (scene32 5 2 5))
        (Epsilon (Toolbox := Binary32.Toolbox_binary32)) = true /\
   (branchTaken (tools := Binary32.Toolbox_binary32) (scene32 5 2 5) = CloserToMaximum \/
    branchTaken (tools := Binary32.Toolbox_binary32) (scene32 5 2 5) = CloserToMinimum) /\
   HasError (UpdateJacobiansAndVelocityBias (tools := Binary32.Toolbox_binary32)
               (scene32 5 2 5)) = false).
Proof.
  scene_facts 5 2 5 Hcd5 Hmn5 Hmx5.
  scene_facts 2 2 5 Hcd2 Hmn2 Hmx2.
  assert (Ho5 : minimumDistance (this (sceneR 5 2 5)) < maximumDistance (this (sceneR 5 2 5)))
    by (rewrite Hmn5, Hmx5; lra).
  assert (Ho2 : minimumDistance (this (sceneR 2 2 5)) < maximumDistance (this (sceneR 2 2 5)))
    by (rewrite Hmn2, Hmx2; lra).
  assert (Hat5 : currentDistance (sceneR 5 2 5) = maximumDistance (this (sceneR 5 2 5)))
    by (rewrite Hcd5, Hmx5; reflexivity).
  assert (Hat2 : currentDistance (sceneR 2 2 5) = minimumDistance (this (sceneR 2 2 5)))
    by (rewrite Hcd2, Hmn2; reflexivity).
  assert (Ho32 : fltb (minimumDistance (this (scene32 5 2 5)))
                      (maximumDistance (this (scene32 5 2 5))) = true)
    by evaluate.
  assert (Hat32 : currentDistance (scene32 5 2 5) = maximumDistance (this (scene32 5 2 5)))
    by evaluate.
  assert (He32 : fgtb (currentDistance (scene32 5 2 5))
                      (Epsilon (Toolbox := Binary32.Toolbox_binary32)) = true)
    by evaluate.
  destruct boundary_distances as [HR H32].
  destruct (HR Toolbox_R (sceneR 5 2 5) Ho5 (or_introl Hat5))
    as (_ & _ & _ & _ & _ & Hh5 & Hin5).
  destruct (HR Toolbox_R (sceneR 2 2 5) Ho2 (or_intror Hat2))
    as (_ & _ & _ & _ & _ & Hh2 & Hin2).
  destruct (H32 Binary32.Toolbox_binary32 (scene32 5 2 5) Ho32 (or_introl Hat32))
    as (_ & _ & _ & _ & _ & Hh32 & Hin32).
  split; [| split].
  - split; [exact Ho5 |]. split; [exact Hat5 |]. split; [| exact Hh5].
    apply Hin5; [rewrite Hcd5; cbn; lra | exact Hat5].
  - split; [exact Ho2 |]. split; [exact Hat2 |]. split; [| exact Hh2].
    apply Hin2; [rewrite Hcd2; cbn; lra | exact Hat2].
  - split; [exact Ho32 |]. split; [exact Hat32 |]. split; [exact He32 |].
    split; [exact (Hin32 He32) | exact Hh32].
Defined.

End Witnesses.

(** ** Further properties of the methods, for every reading of [float] *)

Section MoreGeneric.
Context {F : Type} {ops : Scalar F} {tools : Toolbox F}.

Lemma call_connections (w : World F) (c : Call F) :
  connectionA (this (call w c)) = connectionA (this w) /\
  connectionB (this (call w c)) = connectionB (this w) /\
  errorCorrectionFactor (this (call w c)) = errorCorrectionFactor (this w).
Proof. destruct c; split; try split; reflexivity. Qed.

(** X1: the two bone references and the error correction factor of a limit
    are fixed at construction: whatever methods are called afterwards, and
    however the solver moves the bones, connectionA and connectionB are the
    references the constructor was given. *)
Theorem connections_immutable (skeleton : BoneRef -> IKBone F) (fresh : t F)
    (cA cB : BoneRef) (aA aB : Vector3.t F) (mn mx : F) (cs : list (Call F)) :
  connectionA (this (calls cs (IKDistanceLimit skeleton fresh cA cB aA aB mn mx))) = cA /\
  connectionB (this (calls cs (IKDistanceLimit skeleton fresh cA cB aA aB mn mx))) = cB /\
  errorCorrectionFactor
    (this (calls cs (IKDistanceLimit skeleton fresh cA cB aA aB mn mx))) =
    errorCorrectionFactor fresh.
Proof.
  assert (Hinv : forall (l : list (Call F)) (w : World F),
            connectionA (this (calls l w)) = connectionA (this w) /\
            connectionB (this (calls l w)) = connectionB (this w) /\
            errorCorrectionFactor (this (calls l w)) = errorCorrectionFactor (this w)).
  { induction l as [| c l IH]; intros w; cbn [calls fold_left].
    - split; [| split]; reflexivity.
    - destruct (IH (call w c)) as (HA & HB & Hk).
      destruct (call_connections w c) as (HA' & HB' & Hk').
      unfold calls in HA, HB, Hk.
      rewrite HA, HB, Hk, HA', HB', Hk'. split; [| split]; reflexivity. }
  destruct (Hinv cs (IKDistanceLimit skeleton fresh cA cB aA aB mn mx)) as (HA & HB & Hk).
  rewrite HA, HB, Hk. split; [| split]; reflexivity.
Qed.

(** X2: the setters and a move of the bones leave the derived state alone:
    after SetAnchorA, SetAnchorB, SetMinimumDistance or SetMaximumDistance
    (or a move of the bones) error, velocityBias and the four Jacobians are
    what the last recomputation stored, so that HasError() answers as before
    until UpdateJacobiansAndVelocityBias runs again. *)
Theorem derived_state_stale (w : World F) (c : Call F) :
  c <> CallUpdateJacobiansAndVelocityBias ->
  error (this (call w c)) = error (this w) /\
  velocityBias (this (call w c)) = velocityBias (this w) /\
  linearJacobianA (this (call w c)) = linearJacobianA (this w) /\
  linearJacobianB (this (call w c)) = linearJacobianB (this w) /\
  angularJacobianA (this (call w c)) = angularJacobianA (this w) /\
  angularJacobianB (this (call w c)) = angularJacobianB (this w) /\
  HasError (call w c) = HasError w.
Proof.
  intros Hc. destruct c; try (repeat (split; [reflexivity |]); reflexivity).
  contradiction Hc. reflexivity.
Qed.

(** X3: setters of different fields commute, and of two calls of the same
    distance setter the second wins; so the order in which the constructor
    calls its four setters does not matter.  (The anchor setters read the
    bone poses, and do not commute with a move of the bones.) *)
Theorem setters_compose (w : World F) (a b : Vector3.t F) (u v : F) :
  SetAnchorA a (SetAnchorB b w) = SetAnchorB b (SetAnchorA a w) /\
  SetMinimumDistance u (SetMaximumDistance v w) =
    SetMaximumDistance v (SetMinimumDistance u w) /\
  SetAnchorA a (SetMinimumDistance u w) = SetMinimumDistance u (SetAnchorA a w) /\
  SetAnchorA a (SetMaximumDistance v w) = SetMaximumDistance v (SetAnchorA a w) /\
  SetAnchorB b (SetMinimumDistance u w) = SetMinimumDistance u (SetAnchorB b w) /\
  SetAnchorB b (SetMaximumDistance v w) = SetMaximumDistance v (SetAnchorB b w) /\
  SetMinimumDistance v (SetMinimumDistance u w) = SetMinimumDistance v w /\
  SetMaximumDistance v (SetMaximumDistance u w) = SetMaximumDistance v w /\
  SetAnchorA b (SetAnchorA a w) = SetAnchorA b w /\
  SetAnchorB b (SetAnchorB a w) = SetAnchorB b w.
Proof. repeat (split; [reflexivity |]). reflexivity. Qed.

(** The values of the if-chain, whatever the branch. *)
Lemma policy_cases (w : World F) :
  exists (e x : F) (l : Vector3.t F) (tr : Trace F),
    policy w = mkPolicy e (Vector3.mk x fzero fzero) l tr.
Proof.
  unfold policy.
  destruct (fgtb (currentDistance w) Epsilon);
    [destruct (fgtb (currentDistance w) (maximumDistance (this w)));
     [| destruct (fltb (currentDistance w) (minimumDistance (this w)));
        [| destruct (fgtb (fsub (currentDistance w) (minimumDistance (this w))) _)]] |];
    do 4 eexists; reflexivity.
Qed.

(** X4: after every recomputation, in whichever branch, the second and third
    components of velocityBias are zero: the bias has one meaningful
    component, as the limit has one degree of freedom. *)
Theorem velocityBias_first_component_only (w : World F) :
  Vector3.Y (velocityBias (this (UpdateJacobiansAndVelocityBias w))) = fzero /\
  Vector3.Z (velocityBias (this (UpdateJacobiansAndVelocityBias w))) = fzero.
Proof.
  rewrite Update_velocityBias.
  destruct (policy_cases w) as (e & x & l & tr & Hp). rewrite Hp.
  split; reflexivity.
Qed.

(** X5: a recomputation starts from scratch: two worlds with the same bones
    and the same configuration (connections, correction factor, local
    anchors, bounds) come out of UpdateJacobiansAndVelocityBias with the same
    limit object, whatever error, bias and Jacobians each held before. *)
Theorem recomputation_from_scratch (w1 w2 : World F) :
  bones w1 = bones w2 ->
  connectionA (this w1) = connectionA (this w2) ->
  connectionB (this w1) = connectionB (this w2) ->
  errorCorrectionFactor (this w1) = errorCorrectionFactor (this w2) ->
  LocalAnchorA (this w1) = LocalAnchorA (this w2) ->
  LocalAnchorB (this w1) = LocalAnchorB (this w2) ->
  minimumDistance (this w1) = minimumDistance (this w2) ->
  maximumDistance (this w1) = maximumDistance (this w2) ->
  UpdateJacobiansAndVelocityBias w1 = UpdateJacobiansAndVelocityBias w2 /\
  branchTaken w1 = branchTaken w2.
Proof.
  destruct w1 as [b1 [cA1 cB1 k1 e1 vb1 lA1 aA1 lB1 aB1 la1 lb1 mn1 mx1]].
  destruct w2 as [b2 [cA2 cB2 k2 e2 vb2 lA2 aA2 lB2 aB2 la2 lb2 mn2 mx2]].
  cbn [bones this connectionA connectionB errorCorrectionFactor LocalAnchorA
       LocalAnchorB minimumDistance maximumDistance].
  intros -> -> -> -> -> -> -> ->. split; reflexivity.
Qed.

(** A violation branch is taken only when its test succeeded. *)
Lemma violation_branch_tests (w : World F) :
  (branchTaken w = ExceedsMaximum ->
   fgtb (currentDistance w) (maximumDistance (this w)) = true) /\
  (branchTaken w = ExceedsMinimum ->
   fltb (currentDistance w) (minimumDistance (this w)) = true).
Proof.
  unfold branchTaken. rewrite Update_trace.
  destruct (fgtb (currentDistance w) Epsilon) eqn:He.
  2:{ rewrite (policy_Degenerate w He). split; discriminate. }
  destruct (fgtb (currentDistance w) (maximumDistance (this w))) eqn:Hmax.
  { rewrite (policy_ExceedsMaximum w He Hmax). split; [reflexivity | discriminate]. }
  destruct (fltb (currentDistance w) (minimumDistance (this w))) eqn:Hmin.
  { rewrite (policy_ExceedsMinimum w He Hmax Hmin). split; [discriminate | reflexivity]. }
  destruct (fgtb (fsub (currentDistance w) (minimumDistance (this w)))
                 (fmul (fsub (maximumDistance (this w)) (minimumDistance (this w)))
                       fhalf)) eqn:Hmid.
  - rewrite (policy_CloserToMaximum w He Hmax Hmin Hmid). split; discriminate.
  - rewrite (policy_CloserToMinimum w He Hmax Hmin Hmid). split; discriminate.
Qed.

(** The error a recomputation stores: zero, or the difference of the
    violation whose test succeeded. *)
Lemma error_cases (w : World F) :
  error (this (UpdateJacobiansAndVelocityBias w)) = fzero \/
  (fgtb (currentDistance w) (maximumDistance (this w)) = true /\
   error (this (UpdateJacobiansAndVelocityBias w)) =
     fsub (currentDistance w) (maximumDistance (this w))) \/
  (fltb (currentDistance w) (minimumDistance (this w)) = true /\
   error (this (UpdateJacobiansAndVelocityBias w)) =
     fsub (minimumDistance (this w)) (currentDistance w)).
Proof.
  rewrite Update_error.
  destruct (fgtb (currentDistance w) Epsilon) eqn:He.
  2:{ rewrite (policy_Degenerate w He). left. reflexivity. }
  destruct (fgtb (currentDistance w) (maximumDistance (this w))) eqn:Hmax.
  { rewrite (policy_ExceedsMaximum w He Hmax). right. left. split; reflexivity. }
  destruct (fltb (currentDistance w) (minimumDistance (this w))) eqn:Hmin.
  { rewrite (policy_ExceedsMinimum w He Hmax Hmin). right. right. split; reflexivity. }
  destruct (fgtb (fsub (currentDistance w) (minimumDistance (this w)))
                 (fmul (fsub (maximumDistance (this w)) (minimumDistance (this w)))
                       fhalf)) eqn:Hmid.
  - rewrite (policy_CloserToMaximum w He Hmax Hmin Hmid). left. reflexivity.
  - rewrite (policy_CloserToMinimum w He Hmax Hmin Hmid). left. reflexivity.
Qed.

(** HasError() after a recomputation: true exactly when a violation branch
    was taken and the tolerance test on the error it stored fails. *)
Lemma HasError_after_recomputation {laws : OrderedScalar F} (w : World F) :
  HasError (UpdateJacobiansAndVelocityBias w) = true <->
  (branchTaken w = ExceedsMaximum /\
   fltb (fabs (fsub (currentDistance w) (maximumDistance (this w)))) ftolerance = false) \/
  (branchTaken w = ExceedsMinimum /\
   fltb (fabs (fsub (minimumDistance (this w)) (currentDistance w))) ftolerance = false).
Proof.
  unfold HasError, branchTaken. rewrite Update_error, Update_trace.
  destruct (fgtb (currentDistance w) Epsilon) eqn:He.
  2:{ rewrite (policy_Degenerate w He). cbn [p_error p_trace taken].
      rewrite zero_within_tolerance. cbn [negb].
      split; [discriminate | intros [[E _] | [E _]]; discriminate E]. }
  destruct (fgtb (currentDistance w) (maximumDistance (this w))) eqn:Hmax.
  { rewrite (policy_ExceedsMaximum w He Hmax). cbn [p_error p_trace taken].
    destruct (fltb _ ftolerance); cbn [negb]; split.
    - discriminate.
    - intros [[_ E] | [E _]]; discriminate E.
    - intros _. left. split; reflexivity.
    - reflexivity. }
  destruct (fltb (currentDistance w) (minimumDistance (this w))) eqn:Hmin.
  { rewrite (policy_ExceedsMinimum w He Hmax Hmin). cbn [p_error p_trace taken].
    destruct (fltb _ ftolerance); cbn [negb]; split.
    - discriminate.
    - intros [[E _] | [_ E]]; discriminate E.
    - intros _. right. split; reflexivity.
    - reflexivity. }
  destruct (fgtb (fsub (currentDistance w) (minimumDistance (this w)))
                 (fmul (fsub (maximumDistance (this w)) (minimumDistance (this w)))
                       fhalf)) eqn:Hmid.
  - rewrite (policy_CloserToMaximum w He Hmax Hmin Hmid). cbn [p_error p_trace taken].
    rewrite zero_within_tolerance. cbn [negb].
    split; [discriminate | intros [[E _] | [E _]]; discriminate E].
  - rewrite (policy_CloserToMinimum w He Hmax Hmin Hmid). cbn [p_error p_trace taken].
    rewrite zero_within_tolerance. cbn [negb].
    split; [discriminate | intros [[E _] | [E _]]; discriminate E].
Qed.


(** Clamping twice is clamping once, when no value is above itself. *)
Lemma Max_zero_idempotent {laws : OrderedScalar F} (v : F) :
  MathHelper.Max fzero (MathHelper.Max fzero v) = MathHelper.Max fzero v.
Proof.
  unfold MathHelper.Max at 2 3.
  destruct (fgtb fzero v) eqn:E.
  - unfold MathHelper.Max, fgtb. rewrite fltb_irrefl. reflexivity.
  - unfold MathHelper.Max. rewrite E. reflexivity.
Qed.

End MoreGeneric.

(** ** Further properties in exact arithmetic *)

Section MoreExact.
Import Exact.
Local Open Scope R_scope.

Lemma Length_Negate (v : Vector3.t R) :
  Vector3.Length (Vector3.Negate v) = Vector3.Length v.
Proof.
  destruct v as [x y z]. unfold Vector3.Length, Vector3.Negate.
  cbn [Vector3.X Vector3.Y Vector3.Z fadd fmul fneg fsqrt Scalar_R].
  f_equal. ring.
Qed.

(** The error the if-chain stores, by cases on the three numbers compared. *)
Lemma policy_error_cases (T : Toolbox R) (w : World R) :
  (currentDistance w <= Epsilon /\ branchTaken w = Degenerate /\
   p_error (policy w) = 0) \/
  (currentDistance w > Epsilon /\ currentDistance w > maximumDistance (this w) /\
   branchTaken w = ExceedsMaximum /\
   p_error (policy w) = currentDistance w - maximumDistance (this w)) \/
  (currentDistance w > Epsilon /\ currentDistance w <= maximumDistance (this w) /\
   currentDistance w < minimumDistance (this w) /\
   branchTaken w = ExceedsMinimum /\
   p_error (policy w) = minimumDistance (this w) - currentDistance w) \/
  (currentDistance w > Epsilon /\
   minimumDistance (this w) <= currentDistance w <= maximumDistance (this w) /\
   (branchTaken w = CloserToMaximum \/ branchTaken w = CloserToMinimum) /\
   p_error (policy w) = 0).
Proof.
  unfold branchTaken. rewrite Update_trace.
  destruct (fgtb (currentDistance w) Epsilon) eqn:He.
  2:{ left. rewrite (policy_Degenerate w He). apply fgtb_R_false in He.
      split; [exact He |]. split; reflexivity. }
  right.
  destruct (fgtb (currentDistance w) (maximumDistance (this w))) eqn:Hmax.
  { left. rewrite (policy_ExceedsMaximum w He Hmax).
    apply fgtb_R_true in He. apply fgtb_R_true in Hmax.
    split; [exact He |]. split; [exact Hmax |]. split; reflexivity. }
  right.
  destruct (fltb (currentDistance w) (minimumDistance (this w))) eqn:Hmin.
  { left. rewrite (policy_ExceedsMinimum w He Hmax Hmin).
    apply fgtb_R_true in He. apply fgtb_R_false in Hmax. apply fltb_R_true in Hmin.
    split; [exact He |]. split; [exact Hmax |]. split; [exact Hmin |].
    split; reflexivity. }
  right.
  destruct (fgtb (fsub (currentDistance w) (minimumDistance (this w)))
                 (fmul (fsub (maximumDistance (this w)) (minimumDistance (this w)))
                       fhalf)) eqn:Hmid.
  - rewrite (policy_CloserToMaximum w He Hmax Hmin Hmid).
    apply fgtb_R_true in He. apply fgtb_R_false in Hmax. apply fltb_R_false in Hmin.
    split; [exact He |]. split; [lra |]. split; [left; reflexivity | reflexivity].
  - rewrite (policy_CloserToMinimum w He Hmax Hmin Hmid).
    apply fgtb_R_true in He. apply fgtb_R_false in Hmax. apply fltb_R_false in Hmin.
    split; [exact He |]. split; [lra |]. split; [right; reflexivity | reflexivity].
Qed.

(** X10: the error a recomputation stores is never negative (in exact
    arithmetic; and in binary32, where it is never below 0 when the two
    bounds and currentDistance are well-formed floats), and it is positive
    exactly when a violation branch was taken (exact arithmetic).  A
    HasError() that follows answers true only after a violation branch, in
    exact arithmetic and in binary32 alike; in binary32 it answers true
    exactly when the upper violation was taken and |currentDistance -
    maximumDistance| < 0.0001f fails, or the lower violation was taken and
    |minimumDistance - currentDistance| < 0.0001f fails. *)
Theorem error_after_recomputation :
  (forall (T : Toolbox R) (w : World R),
     0 <= error (this (UpdateJacobiansAndVelocityBias w)) /\
     (error (this (UpdateJacobiansAndVelocityBias w)) > 0 <->
      branchTaken w = ExceedsMaximum \/ branchTaken w = ExceedsMinimum) /\
     (HasError (UpdateJacobiansAndVelocityBias w) = true ->
      branchTaken w = ExceedsMaximum \/ branchTaken w = ExceedsMinimum)) /\
  (forall (T : Toolbox Binary32.float) (w : World Binary32.float),
     (Binary32.well_formed (minimumDistance (this w)) = true ->
      Binary32.well_formed (currentDistance w) = true ->
      Binary32.well_formed (maximumDistance (this w)) = true ->
      SFltb (error (this (UpdateJacobiansAndVelocityBias w))) (S754_zero false) = false) /\
     (HasError (UpdateJacobiansAndVelocityBias w) = true ->
      branchTaken w = ExceedsMaximum \/ branchTaken w = ExceedsMinimum) /\
     (HasError (UpdateJacobiansAndVelocityBias w) = true <->
      (branchTaken w = ExceedsMaximum /\
       SFltb (SFabs (SFsub Binary32.prec Binary32.emax
                       (currentDistance w) (maximumDistance (this w))))
             (S754_finite false 13743895 (-37)) = false) \/
      (branchTaken w = ExceedsMinimum /\
       SFltb (SFabs (SFsub Binary32.prec Binary32.emax
                       (minimumDistance (this w)) (currentDistance w)))
             (S754_finite false 13743895 (-37)) = false))).
Proof.
  split.
  - intros T w.
    assert (Hsign : 0 <= error (this (UpdateJacobiansAndVelocityBias w)) /\
              (error (this (UpdateJacobiansAndVelocityBias w)) > 0 <->
               branchTaken w = ExceedsMaximum \/ branchTaken w = ExceedsMinimum)).
    { rewrite Update_error.
      destruct (@policy_error_cases T w)
        as [(He & Hb & Herr) | [(He & Hmax & Hb & Herr) |
            [(He & Hmax & Hmin & Hb & Herr) | (He & Hband & Hb & Herr)]]];
        rewrite Herr.
      - rewrite Hb. split; [lra |].
        split; [lra | intros [E | E]; discriminate E].
      - rewrite Hb. split; [lra |].
        split; [intros _; left; reflexivity | lra].
      - rewrite Hb. split; [lra |].
        split; [intros _; right; reflexivity | lra].
      - split; [lra |].
        split; [lra | destruct Hb as [-> | ->]; intros [E | E]; discriminate E]. }
    destruct Hsign as [Hge Hpos].
    split; [exact Hge |]. split; [exact Hpos |].
    intros Hhas.
    apply (proj1 (@HasError_after_recomputation _ _ T OrderedScalar_R w)) in Hhas.
    destruct Hhas as [[Hb _] | [Hb _]]; [left | right]; exact Hb.
  - intros T w.
    pose proof (@HasError_after_recomputation _ _ T OrderedScalar_binary32 w) as H.
    split; [| split; [| exact H]].
    + intros Vmn Vcd Vmx.
      destruct (@error_cases _ _ T w) as [-> | [[Hmax ->] | [Hmin ->]]].
      * reflexivity.
      * apply (SFsub_not_negative _ _ Vcd Vmx). apply SFltb_SFleb. exact Hmax.
      * apply (SFsub_not_negative _ _ Vmn Vcd). apply SFltb_SFleb. exact Hmin.
    + intros Hhas. apply (proj1 H) in Hhas.
      destruct Hhas as [[Hb _] | [Hb _]]; [left | right]; exact Hb.
Qed.

(** X11: for an ordered band (minimumDistance <= maximumDistance) and anchors
    that do not coincide, the error stored is the distance from
    currentDistance to the band: max(0, currentDistance - maximumDistance,
    minimumDistance - currentDistance); with equal bounds it is
    |currentDistance - maximumDistance|, the error of a rod of fixed length. *)
Theorem error_is_distance_to_band (T : Toolbox R) (w : World R) :
  minimumDistance (this w) <= maximumDistance (this w) ->
  currentDistance w > Epsilon ->
  error (this (UpdateJacobiansAndVelocityBias w)) =
    Rmax 0 (Rmax (currentDistance w - maximumDistance (this w))
                 (minimumDistance (this w) - currentDistance w)) /\
  (minimumDistance (this w) = maximumDistance (this w) ->
   error (this (UpdateJacobiansAndVelocityBias w)) =
     Rabs (currentDistance w - maximumDistance (this w))).
Proof.
  intros Hord He. rewrite Update_error.
  destruct (@policy_error_cases T w)
    as [(He' & _) | [(_ & Hmax & _ & Herr) |
        [(_ & Hmax & Hmin & _ & Herr) | (_ & Hband & _ & Herr)]]];
    [lra | | |]; rewrite Herr.
  - split.
    + rewrite (Rmax_left (_ - _) (_ - _)) by lra. rewrite Rmax_right; lra.
    + intros _. rewrite Rabs_right; lra.
  - split.
    + rewrite (Rmax_right (_ - _) (_ - _)) by lra. rewrite Rmax_right; lra.
    + intros E. rewrite Rabs_left; lra.
  - split.
    + rewrite Rmax_left; [reflexivity |].
      apply Rmax_lub; lra.
    + intros E. replace (currentDistance w - maximumDistance (this w)) with 0 by lra.
      rewrite Rabs_R0. reflexivity.
Qed.

(** X12: a band given upside down (minimumDistance > maximumDistance, which
    no setter refuses) is never satisfied: every recomputation with anchors
    that do not coincide takes a violation branch, the upper one first, and
    stores a positive error. *)
Theorem inverted_band_always_violated (T : Toolbox R) (w : World R) :
  minimumDistance (this w) > maximumDistance (this w) ->
  currentDistance w > Epsilon ->
  (branchTaken w = ExceedsMaximum \/ branchTaken w = ExceedsMinimum) /\
  (currentDistance w > maximumDistance (this w) -> branchTaken w = ExceedsMaximum) /\
  error (this (UpdateJacobiansAndVelocityBias w)) > 0.
Proof.
  intros Hinv He. rewrite Update_error.
  destruct (@policy_error_cases T w)
    as [(He' & _) | [(_ & Hmax & Hb & Herr) |
        [(_ & Hmax & Hmin & Hb & Herr) | (_ & Hband & _)]]];
    [lra | | | lra]; rewrite Herr, Hb.
  - split; [left; reflexivity |]. split; [reflexivity | lra].
  - split; [right; reflexivity |]. split; [lra | lra].
Qed.

(** X13: a limit with minimumDistance 0 has no lower violation: whatever the
    pose, a recomputation never takes the branch that exceeds the minimum
    (the length of the separation is not negative). *)
Theorem no_lower_violation_at_zero (T : Toolbox R) (w : World R) :
  minimumDistance (this w) = 0 ->
  branchTaken w <> ExceedsMinimum.
Proof.
  intros Hmn.
  assert (Hcd : 0 <= currentDistance w) by apply Length_nonneg.
  destruct (@policy_error_cases T w)
    as [(_ & Hb & _) | [(_ & _ & Hb & _) |
        [(_ & _ & Hmin & _) | (_ & _ & Hb & _)]]].
  - rewrite Hb. discriminate.
  - rewrite Hb. discriminate.
  - lra.
  - destruct Hb as [-> | ->]; discriminate.
Qed.

Lemma Negate_involutive (v : Vector3.t R) : Vector3.Negate (Vector3.Negate v) = v.
Proof. destruct v. unfold Vector3.Negate. cbn. f_equal; ring. Qed.

Lemma swapConnections_separation (w : World R) :
  separation (swapConnections w) = Vector3.Negate (separation w).
Proof.
  unfold separation, anchorA, anchorB, offsetA, offsetB, boneA, boneB, swapConnections.
  cbn [bones this connectionA connectionB LocalAnchorA LocalAnchorB].
  destruct (Position (bones w (connectionA (this w)))) as [ax ay az].
  destruct (Position (bones w (connectionB (this w)))) as [bx by' bz].
  destruct (Quaternion.Transform (LocalAnchorA (this w)) _) as [ox oy oz].
  destruct (Quaternion.Transform (LocalAnchorB (this w)) _) as [px py pz].
  unfold Vector3.Subtract, Vector3.Add, Vector3.Negate. cbn. f_equal; ring.
Qed.

Lemma swapConnections_currentDistance (w : World R) :
  currentDistance (swapConnections w) = currentDistance w.
Proof.
  unfold currentDistance. rewrite swapConnections_separation. apply Length_Negate.
Qed.

Lemma swapConnections_unitSeparation (w : World R) :
  unitSeparation (swapConnections w) = Vector3.Negate (unitSeparation w).
Proof.
  unfold unitSeparation.
  rewrite swapConnections_separation, swapConnections_currentDistance.
  destruct (separation w) as [x y z]. unfold Vector3.Negate.
  cbn [Vector3.X Vector3.Y Vector3.Z fdiv fneg Scalar_R].
  unfold Rdiv. f_equal; ring.
Qed.

(** The if-chain after the exchange: the same branch, error and bias, and the
    opposite direction. *)
Lemma swapConnections_policy (T : Toolbox R) (w : World R) :
  p_error (policy (swapConnections w)) = p_error (policy w) /\
  p_velocityBias (policy (swapConnections w)) = p_velocityBias (policy w) /\
  p_linearA (policy (swapConnections w)) = Vector3.Negate (p_linearA (policy w)) /\
  taken (p_trace (policy (swapConnections w))) = taken (p_trace (policy w)).
Proof.
  pose proof (swapConnections_currentDistance w) as Hcd.
  pose proof (swapConnections_unitSeparation w) as Hu.
  destruct (fgtb (currentDistance w) Epsilon) eqn:He.
  2:{ rewrite (policy_Degenerate w He).
      rewrite (policy_Degenerate (swapConnections w)) by (rewrite Hcd; exact He).
      cbn [p_error p_velocityBias p_linearA p_trace taken].
      rewrite Negate_zero. repeat (split; [reflexivity |]). reflexivity. }
  destruct (fgtb (currentDistance w) (maximumDistance (this w))) eqn:Hmax.
  { rewrite (policy_ExceedsMaximum w He Hmax).
    rewrite (policy_ExceedsMaximum (swapConnections w))
      by (rewrite Hcd; assumption).
    cbn [p_error p_velocityBias p_linearA p_trace taken].
    rewrite Hcd, Hu. repeat (split; [reflexivity |]). reflexivity. }
  destruct (fltb (currentDistance w) (minimumDistance (this w))) eqn:Hmin.
  { rewrite (policy_ExceedsMinimum w He Hmax Hmin).
    rewrite (policy_ExceedsMinimum (swapConnections w))
      by (rewrite Hcd; assumption).
    cbn [p_error p_velocityBias p_linearA p_trace taken].
    rewrite Hcd, Hu. repeat (split; [reflexivity |]). reflexivity. }
  destruct (fgtb (fsub (currentDistance w) (minimumDistance (this w)))
                 (fmul (fsub (maximumDistance (this w)) (minimumDistance (this w)))
                       fhalf)) eqn:Hmid.
  - rewrite (policy_CloserToMaximum w He Hmax Hmin Hmid).
    rewrite (policy_CloserToMaximum (swapConnections w))
      by (rewrite Hcd; assumption).
    cbn [p_error p_velocityBias p_linearA p_trace taken].
    rewrite Hcd, Hu. repeat (split; [reflexivity |]). reflexivity.
  - rewrite (policy_CloserToMinimum w He Hmax Hmin Hmid).
    rewrite (policy_CloserToMinimum (swapConnections w))
      by (rewrite Hcd; assumption).
    cbn [p_error p_velocityBias p_linearA p_trace taken].
    rewrite Hcd, Hu. repeat (split; [reflexivity |]). reflexivity.
Qed.

(** X18: the limit is symmetric in its two connections.  Exchanging bone A
    with bone B (and their local anchors) leaves the distance, the branch
    taken, the error and the bias of a recomputation as they were and
    exchanges the Jacobians: what was stored for A is stored for B and
    conversely, linear and angular. *)
Theorem connections_are_symmetric (T : Toolbox R) (w : World R) :
  currentDistance (swapConnections w) = currentDistance w /\
  branchTaken (swapConnections w) = branchTaken w /\
  error (this (UpdateJacobiansAndVelocityBias (swapConnections w))) =
    error (this (UpdateJacobiansAndVelocityBias w)) /\
  velocityBias (this (UpdateJacobiansAndVelocityBias (swapConnections w))) =
    velocityBias (this (UpdateJacobiansAndVelocityBias w)) /\
  linearJacobianA (this (UpdateJacobiansAndVelocityBias (swapConnections w))) =
    linearJacobianB (this (UpdateJacobiansAndVelocityBias w)) /\
  linearJacobianB (this (UpdateJacobiansAndVelocityBias (swapConnections w))) =
    linearJacobianA (this (UpdateJacobiansAndVelocityBias w)) /\
  angularJacobianA (this (UpdateJacobiansAndVelocityBias (swapConnections w))) =
    angularJacobianB (this (UpdateJacobiansAndVelocityBias w)) /\
  angularJacobianB (this (UpdateJacobiansAndVelocityBias (swapConnections w))) =
    angularJacobianA (this (UpdateJacobiansAndVelocityBias w)).
Proof.
  destruct (@swapConnections_policy T w) as (Herr & Hvb & Hl & Hb).
  split; [apply swapConnections_currentDistance |].
  split; [unfold branchTaken; rewrite !Update_trace; exact Hb |].
  split; [rewrite !Update_error; exact Herr |].
  split; [rewrite !Update_velocityBias; exact Hvb |].
  unfold UpdateJacobiansAndVelocityBias, UpdateJacobiansAndVelocityBias_traced.
  cbn [fst this with_this linearJacobianA linearJacobianB angularJacobianA
       angularJacobianB].
  change (offsetA (swapConnections w)) with (offsetB w).
  change (offsetB (swapConnections w)) with (offsetA w).
  rewrite Hl.
  generalize (p_linearA (policy w)). intros l.
  split; [reflexivity |].
  split.
  { destruct l as [x y z]. unfold Matrix3X3.ofRow, Vector3.Negate.
    cbn [Vector3.X Vector3.Y Vector3.Z fneg Scalar_R]. f_equal; ring. }
  split.
  { rewrite <- (Cross_swap l (offsetB w)). reflexivity. }
  rewrite (Cross_swap (Vector3.Negate l) (offsetA w)), Negate_involutive. reflexivity.
Qed.




End MoreExact.

(** ** Further properties in binary32 *)

Section MoreBinary32.
Import Binary32.

(** A comparison with NaN is false, on either side. *)
Lemma SFltb_nan (x : float) : SFltb x S754_nan = false /\ SFltb S754_nan x = false.
Proof. destruct x; split; reflexivity. Qed.

(** Two floats that are numbers are comparable: not below is at or above. *)
Lemma SFcompare_numbers (x y : float) :
  x <> S754_nan -> y <> S754_nan -> exists c, SFcompare x y = Some c.
Proof.
  intros Hx Hy.
  destruct x as [sx | sx | | sx mx ex], y as [sy | sy | | sy my ey];
    try contradiction; cbn [SFcompare]; eexists; reflexivity.
Qed.

Lemma SFltb_false_SFleb (x y : float) :
  x <> S754_nan -> y <> S754_nan ->
  (SFltb x y = false <-> SFleb y x = true).
Proof.
  intros Hx Hy. unfold SFltb, SFleb. rewrite (SFcompare_antisym x y).
  destruct (SFcompare_numbers Hx Hy) as [c Hc]. rewrite Hc.
  destruct c; cbn; split; congruence.
Qed.

(** X14: HasError() in binary32 answers true exactly when error is not a
    number or |error| is at least 0.0001f: a NaN left in error is reported
    as an error, never hidden. *)
Theorem HasError_binary32 (w : World float) :
  HasError w = true <->
  error (this w) = S754_nan \/ SFleb ftolerance (SFabs (error (this w))) = true.
Proof.
  unfold HasError. cbn [fltb fabs Scalar_binary32].
  destruct (error (this w)) as [s | s | | s m e] eqn:Herr.
  - split; [intros E; vm_compute in E; discriminate E |].
    intros [E | E]; [discriminate E | vm_compute in E; discriminate E].
  - split; [intros _; right; reflexivity | intros _; reflexivity].
  - split; [intros _; left; reflexivity | intros _; reflexivity].
  - assert (Hc : SFltb (SFabs (S754_finite s m e)) ftolerance = false <->
                 SFleb ftolerance (SFabs (S754_finite s m e)) = true).
    { apply SFltb_false_SFleb; discriminate. }
    cbn [ftolerance Scalar_binary32] in *.
    destruct (SFltb (SFabs (S754_finite s m e)) (S754_finite false 13743895 (-37)))
      eqn:E; cbn [negb].
    + split; [discriminate |].
      intros [E' | E']; [discriminate E' |].
      apply Hc in E'. discriminate E'.
    + split; [intros _; right; apply Hc; reflexivity | reflexivity].
Qed.

(** X15: a distance that is not a number is treated as coincident anchors.
    When currentDistance is NaN (a NaN in a bone position or in an anchor),
    the test currentDistance > Epsilon is false: the recomputation takes the
    degenerate branch, divides nothing, stores error 0, and HasError()
    answers false.  A bound that is NaN is never reported as violated. *)
Theorem NaN_is_never_a_violation (T : Toolbox float) (w : World float) :
  (currentDistance w = S754_nan ->
   branchTaken w = Degenerate /\
   divisionsExecuted w = [] /\
   error (this (UpdateJacobiansAndVelocityBias w)) = fzero /\
   HasError (UpdateJacobiansAndVelocityBias w) = false) /\
  (maximumDistance (this w) = S754_nan -> branchTaken w <> ExceedsMaximum) /\
  (minimumDistance (this w) = S754_nan -> branchTaken w <> ExceedsMinimum).
Proof.
  split; [| split].
  - intros Hnan.
    assert (He : fgtb (currentDistance w) Epsilon = false).
    { unfold fgtb. rewrite Hnan. apply (SFltb_nan Epsilon). }
    destruct (degenerate_generic w He) as (Hd & Hb & Herr & _).
    split; [exact Hb |]. split; [exact Hd |]. split; [exact Herr |].
    unfold HasError. rewrite Herr. reflexivity.
  - intros Hnan Hb. apply (proj1 (violation_branch_tests w)) in Hb.
    unfold fgtb in Hb. rewrite Hnan in Hb.
    rewrite (proj2 (SFltb_nan (currentDistance w))) in Hb. discriminate.
  - intros Hnan Hb. apply (proj2 (violation_branch_tests w)) in Hb.
    rewrite Hnan in Hb.
    rewrite (proj1 (SFltb_nan (currentDistance w))) in Hb. discriminate.
Qed.

(** What rounding returns for a positive sign is not negative. *)
Lemma binary_round_aux_not_negative (m e : Z) (l : location) (s : bool) :
  SFltb (binary_round_aux prec emax false m e l) (S754_zero s) = false.
Proof.
  unfold binary_round_aux.
  destruct (shr_fexp prec emax m e l) as [mrs' e'].
  destruct (shr_fexp prec emax _ e' loc_Exact) as [mrs'' e''].
  destruct (shr_m mrs''); try reflexivity.
  destruct (Z.leb e'' (emax - prec)); reflexivity.
Qed.

(** A square root is not below zero. *)
Lemma SFsqrt_not_negative (x : float) (s : bool) :
  SFltb (SFsqrt prec emax x) (S754_zero s) = false.
Proof.
  destruct x as [sx | sx | | sx mx ex]; try reflexivity.
  - destruct sx; reflexivity.
  - destruct sx; [reflexivity |].
    cbn [SFsqrt].
    destruct (SFsqrt_core_binary prec emax (Z.pos mx) ex) as [[mz ez] lz].
    apply binary_round_aux_not_negative.
Qed.

(** Nothing is above plus infinity. *)
Lemma SFltb_infinity (x : float) : SFltb (S754_infinity false) x = false.
Proof. destruct x as [s | s | | s m e]; try reflexivity; destruct s; reflexivity. Qed.

(** X16: one-sided limits in binary32.  With maximumDistance = +infinity a
    recomputation never takes the branch that exceeds the maximum, and with
    minimumDistance = 0 it never takes the branch that exceeds the minimum,
    whatever the pose (a NaN or an overflow in it included). *)
Theorem one_sided_limits_binary32 (T : Toolbox float) (w : World float) :
  (maximumDistance (this w) = S754_infinity false -> branchTaken w <> ExceedsMaximum) /\
  (minimumDistance (this w) = fzero -> branchTaken w <> ExceedsMinimum).
Proof.
  split.
  - intros Hinf Hb. apply (proj1 (violation_branch_tests w)) in Hb.
    unfold fgtb in Hb. rewrite Hinf in Hb.
    cbn [fltb Scalar_binary32] in Hb. rewrite SFltb_infinity in Hb. discriminate.
  - intros Hz Hb. apply (proj2 (violation_branch_tests w)) in Hb.
    rewrite Hz in Hb. unfold currentDistance, Vector3.Length in Hb.
    cbn [fltb fsqrt fzero Scalar_binary32] in Hb.
    rewrite SFsqrt_not_negative in Hb. discriminate.
Qed.

(** X17: a distance setter applied to the value its getter returns changes
    nothing once the bound has been set: max(0, max(0, v)) = max(0, v), in
    exact arithmetic and in binary32. *)
Theorem distance_get_then_set :
  (forall (w : World R) (v : R),
     SetMinimumDistance (GetMinimumDistance (SetMinimumDistance v w))
                        (SetMinimumDistance v w) = SetMinimumDistance v w /\
     SetMaximumDistance (GetMaximumDistance (SetMaximumDistance v w))
                        (SetMaximumDistance v w) = SetMaximumDistance v w) /\
  (forall (w : World float) (v : float),
     SetMinimumDistance (GetMinimumDistance (SetMinimumDistance v w))
                        (SetMinimumDistance v w) = SetMinimumDistance v w /\
     SetMaximumDistance (GetMaximumDistance (SetMaximumDistance v w))
                        (SetMaximumDistance v w) = SetMaximumDistance v w).
Proof.
  split; intros w v; unfold SetMinimumDistance, SetMaximumDistance,
    GetMinimumDistance, GetMaximumDistance;
    cbn [this with_this bones connectionA connectionB errorCorrectionFactor error
         velocityBias linearJacobianA angularJacobianA linearJacobianB
         angularJacobianB LocalAnchorA LocalAnchorB minimumDistance maximumDistance].
  - rewrite (@Max_zero_idempotent R _ OrderedScalar_R v). split; reflexivity.
  - rewrite (@Max_zero_idempotent float _ OrderedScalar_binary32 v). split; reflexivity.
Qed.

End MoreBinary32.

(** ** The further properties at concrete scenes *)

Section MoreWitnesses.
Import Exact.
Local Open Scope R_scope.

(** Setting the minimum to 3 in the scene with anchors 6 apart, after a
    recomputation: the error stays 1 and HasError() answers as before. *)
Lemma derived_state_stale_witness :
  CallSetMinimumDistance 3 <> CallUpdateJacobiansAndVelocityBias /\
  error (this (call (tools := Toolbox_R)
                 (UpdateJacobiansAndVelocityBias (tools := Toolbox_R) (sceneR 6 2 5))
                 (CallSetMinimumDistance 3))) =
  error (this (UpdateJacobiansAndVelocityBias (tools := Toolbox_R) (sceneR 6 2 5))).
Proof.
  assert (Hc : CallSetMinimumDistance 3 <> @CallUpdateJacobiansAndVelocityBias R)
    by discriminate.
  split; [exact Hc |].
  exact (proj1 (@derived_state_stale R _ Toolbox_R
                  (UpdateJacobiansAndVelocityBias (tools := Toolbox_R) (sceneR 6 2 5))
                  (CallSetMinimumDistance 3) Hc)).
Defined.

(** The turned world, once as it is and once with 7 left in error: the
    recomputation gives the same world. *)
Lemma recomputation_from_scratch_witness :
  UpdateJacobiansAndVelocityBias (tools := Toolbox_R) turnedWorld =
  UpdateJacobiansAndVelocityBias (tools := Toolbox_R) (havingError 7 turnedWorld).
Proof.
  exact (proj1 (@recomputation_from_scratch R _ Toolbox_R
                  turnedWorld (havingError 7 turnedWorld)
                  eq_refl eq_refl eq_refl eq_refl eq_refl eq_refl eq_refl eq_refl)).
Defined.

(** The band [2, 5] with anchors 6 apart (error 1), and the rod of length 4
    with anchors 6 apart (error |6 - 4|). *)
Lemma error_is_distance_to_band_witness :
  (minimumDistance (this (sceneR 6 2 5)) <= maximumDistance (this (sceneR 6 2 5)) /\
   currentDistance (sceneR 6 2 5) > Epsilon (Toolbox := Toolbox_R) /\
   error (this (UpdateJacobiansAndVelocityBias (tools := Toolbox_R) (sceneR 6 2 5))) =
     Rmax 0 (Rmax (6 - 5) (2 - 6))) /\
  (minimumDistance (this (sceneR 6 4 4)) = maximumDistance (this (sceneR 6 4 4)) /\
   currentDistance (sceneR 6 4 4) > Epsilon (Toolbox := Toolbox_R) /\
   error (this (UpdateJacobiansAndVelocityBias (tools := Toolbox_R) (sceneR 6 4 4))) =
     Rabs (6 - 4)).
Proof.
  scene_facts 6 2 5 Hcd Hmn Hmx.
  scene_facts 6 4 4 Hcd' Hmn' Hmx'.
  assert (Ho : minimumDistance (this (sceneR 6 2 5)) <= maximumDistance (this (sceneR 6 2 5)))
    by (rewrite Hmn, Hmx; lra).
  assert (He : currentDistance (sceneR 6 2 5) > Epsilon (Toolbox := Toolbox_R))
    by (rewrite Hcd; cbn; lra).
  assert (Heq : minimumDistance (this (sceneR 6 4 4)) = maximumDistance (this (sceneR 6 4 4)))
    by (rewrite Hmn', Hmx'; reflexivity).
  assert (Ho' : minimumDistance (this (sceneR 6 4 4)) <= maximumDistance (this (sceneR 6 4 4)))
    by (rewrite Heq; lra).
  assert (He' : currentDistance (sceneR 6 4 4) > Epsilon (Toolbox := Toolbox_R))
    by (rewrite Hcd'; cbn; lra).
  destruct (@error_is_distance_to_band Toolbox_R (sceneR 6 2 5) Ho He) as [Herr _].
  destruct (@error_is_distance_to_band Toolbox_R (sceneR 6 4 4) Ho' He') as [_ Hrod].
  split.
  - split; [exact Ho |]. split; [exact He |]. rewrite Herr, Hcd, Hmn, Hmx. reflexivity.
  - split; [exact Heq |]. split; [exact He' |]. rewrite (Hrod Heq), Hcd', Hmx'. reflexivity.
Defined.

(** The band given as [5, 2], with anchors 3 apart: above the maximum. *)
Lemma inverted_band_always_violated_witness :
  minimumDistance (this (sceneR 3 5 2)) > maximumDistance (this (sceneR 3 5 2)) /\
  currentDistance (sceneR 3 5 2) > Epsilon (Toolbox := Toolbox_R) /\
  branchTaken (tools := Toolbox_R) (sceneR 3 5 2) = ExceedsMaximum /\
  error (this (UpdateJacobiansAndVelocityBias (tools := Toolbox_R) (sceneR 3 5 2))) > 0.
Proof.
  scene_facts 3 5 2 Hcd Hmn Hmx.
  assert (Hinv : minimumDistance (this (sceneR 3 5 2)) > maximumDistance (this (sceneR 3 5 2)))
    by (rewrite Hmn, Hmx; lra).
  assert (He : currentDistance (sceneR 3 5 2) > Epsilon (Toolbox := Toolbox_R))
    by (rewrite Hcd; cbn; lra).
  destruct (@inverted_band_always_violated Toolbox_R (sceneR 3 5 2) Hinv He)
    as (_ & Hup & Herr).
  split; [exact Hinv |]. split; [exact He |]. split; [| exact Herr].
  apply Hup. rewrite Hcd, Hmx. lra.
Defined.

(** The band [0, 5] with anchors 1 apart. *)
Lemma no_lower_violation_at_zero_witness :
  minimumDistance (this (sceneR 1 0 5)) = 0 /\
  branchTaken (tools := Toolbox_R) (sceneR 1 0 5) <> ExceedsMinimum.
Proof.
  scene_facts 1 0 5 Hcd Hmn Hmx.
  split; [exact Hmn |].
  exact (@no_lower_violation_at_zero Toolbox_R (sceneR 1 0 5) Hmn).
Defined.

(** A bone at a position that is not a number, and bounds that are not
    numbers, in binary32. *)
Lemma NaN_is_never_a_violation_witness :
  (currentDistance sceneNaN32 = S754_nan /\
   branchTaken (tools := Binary32.Toolbox_binary32) sceneNaN32 = Degenerate /\
   HasError (UpdateJacobiansAndVelocityBias (tools := Binary32.Toolbox_binary32)
               sceneNaN32) = false) /\
  (maximumDistance (this sceneNaNBounds32) = S754_nan /\
   minimumDistance (this sceneNaNBounds32) = S754_nan /\
   branchTaken (tools := Binary32.Toolbox_binary32) sceneNaNBounds32 <> ExceedsMaximum /\
   branchTaken (tools := Binary32.Toolbox_binary32) sceneNaNBounds32 <> ExceedsMinimum).
Proof.
  assert (Hcd : currentDistance sceneNaN32 = S754_nan) by evaluate.
  assert (Hmx : maximumDistance (this sceneNaNBounds32) = S754_nan) by evaluate.
  assert (Hmn : minimumDistance (this sceneNaNBounds32) = S754_nan) by evaluate.
  destruct (@NaN_is_never_a_violation Binary32.Toolbox_binary32 sceneNaN32)
    as (Hdeg & _ & _).
  destruct (@NaN_is_never_a_violation Binary32.Toolbox_binary32 sceneNaNBounds32)
    as (_ & Hup & Hlo).
  destruct (Hdeg Hcd) as (Hb & _ & _ & Hhas).
  split.
  - split; [exact Hcd |]. split; [exact Hb | exact Hhas].
  - split; [exact Hmx |]. split; [exact Hmn |]. split; [exact (Hup Hmx) | exact (Hlo Hmn)].
Defined.

(** The open band [0, +infinity) in binary32. *)
Lemma one_sided_limits_binary32_witness :
  maximumDistance (this sceneOpen32) = S754_infinity false /\
  minimumDistance (this sceneOpen32) = fzero /\
  branchTaken (tools := Binary32.Toolbox_binary32) sceneOpen32 <> ExceedsMaximum /\
  branchTaken (tools := Binary32.Toolbox_binary32) sceneOpen32 <> ExceedsMinimum.
Proof.
  assert (Hmx : maximumDistance (this sceneOpen32) = S754_infinity false) by evaluate.
  assert (Hmn : minimumDistance (this sceneOpen32) = fzero) by evaluate.
  destruct (@one_sided_limits_binary32 Binary32.Toolbox_binary32 sceneOpen32) as [Hup Hlo].
  split; [exact Hmx |]. split; [exact Hmn |]. split; [exact (Hup Hmx) | exact (Hlo Hmn)].
Defined.

(** The band [2, 5] with anchors 6 apart in binary32: three well-formed
    distances, an error that is not below 0, and a HasError() that is true
    after the upper violation. *)
Lemma error_after_recomputation_witness :
  Binary32.well_formed (minimumDistance (this (scene32 6 2 5))) = true /\
  Binary32.well_formed (currentDistance (scene32 6 2 5)) = true /\
  Binary32.well_formed (maximumDistance (this (scene32 6 2 5))) = true /\
  SFltb (error (this (UpdateJacobiansAndVelocityBias (tools := Binary32.Toolbox_binary32)
                        (scene32 6 2 5))))
        (S754_zero false) = false /\
  HasError (UpdateJacobiansAndVelocityBias (tools := Binary32.Toolbox_binary32)
              (scene32 6 2 5)) = true /\
  branchTaken (tools := Binary32.Toolbox_binary32) (scene32 6 2 5) = ExceedsMaximum.
Proof.
  assert (Vmn : Binary32.well_formed (minimumDistance (this (scene32 6 2 5))) = true)
    by evaluate.
  assert (Vcd : Binary32.well_formed (currentDistance (scene32 6 2 5)) = true)
    by evaluate.
  assert (Vmx : Binary32.well_formed (maximumDistance (this (scene32 6 2 5))) = true)
    by evaluate.
  assert (Hhas : HasError (UpdateJacobiansAndVelocityBias
                             (tools := Binary32.Toolbox_binary32) (scene32 6 2 5)) = true)
    by evaluate.
  destruct error_after_recomputation as [_ H32].
  destruct (H32 Binary32.Toolbox_binary32 (scene32 6 2 5)) as (Hsign & _ & _).
  split; [exact Vmn |]. split; [exact Vcd |]. split; [exact Vmx |].
  split; [exact (Hsign Vmn Vcd Vmx) |]. split; [exact Hhas | evaluate].
Defined.


End MoreWitnesses.
